(** * The ownCloud storage adapter of gravyvalet

    A shallow embedding of [addon_imps/storage/owncloud.py]: the item
    identifier codec, the href normalisation, the parsing of WebDAV
    response elements and the four PROPFIND operations, followed by the
    properties that the specification states about them.

    Python strings are [string]; the [dict] of extra authentication
    results and the header [dict] are [gmap string string]; an exception
    is a value of [exn] carried by [result]; the network is a function of
    the requests issued so far, threaded through a small state monad. *)

From Stdlib Require Import String Ascii List Bool Arith Lia.
From stdpp Require Import base option list gmap strings.

Local Open Scope string_scope.

(** ** Python string methods used by the adapter *)

Module Py.

(** [s.lstrip(c)] for a one-character argument. *)
Fixpoint lstrip (c : ascii) (s : string) : string :=
  match s with
  | EmptyString => EmptyString
  | String a s' => if Ascii.eqb a c then lstrip c s' else s
  end.

(** [s.rstrip(c)] for a one-character argument. *)
Fixpoint rstrip (c : ascii) (s : string) : string :=
  match s with
  | EmptyString => EmptyString
  | String a s' =>
      match rstrip c s' with
      | EmptyString =>
          if Ascii.eqb a c then EmptyString else String a EmptyString
      | String b r => String a (String b r)
      end
  end.

(** [s.strip(c)]. *)
Definition strip (c : ascii) (s : string) : string :=
  lstrip c (rstrip c s).

(** [s.startswith(prefix)]. *)
Fixpoint startswith (s prefix : string) : bool :=
  match prefix, s with
  | EmptyString, _ => true
  | String _ _, EmptyString => false
  | String p prefix', String a s' => Ascii.eqb a p && startswith s' prefix'
  end.

(** [s[n:]]. *)
Fixpoint slice_from (n : nat) (s : string) : string :=
  match n, s with
  | O, _ => s
  | S _, EmptyString => EmptyString
  | S n', String _ s' => slice_from n' s'
  end.

(** [s.split(c)]: never empty, one more field than there are [c]. *)
Fixpoint split (c : ascii) (s : string) : list string :=
  match s with
  | EmptyString => [EmptyString]
  | String a s' =>
      if Ascii.eqb a c then EmptyString :: split c s'
      else match split c s' with
           | h :: t => String a h :: t
           | [] => [String a EmptyString]
           end
  end.

(** [s.split(c, maxsplit=1)]: one field, or two when [c] occurs. *)
Fixpoint split_max1 (c : ascii) (s : string) : list string :=
  match s with
  | EmptyString => [EmptyString]
  | String a s' =>
      if Ascii.eqb a c then [EmptyString; s']
      else match split_max1 c s' with
           | h :: t => String a h :: t
           | [] => [String a EmptyString]
           end
  end.

(** [c in s]. *)
Fixpoint contains (c : ascii) (s : string) : bool :=
  match s with
  | EmptyString => false
  | String a s' => Ascii.eqb a c || contains c s'
  end.

(** [l[-1]] on the result of a [split], which is never empty. *)
Definition last_field (l : list string) : string :=
  List.last l EmptyString.

(** Truth value of a [str]. *)
Definition truthy (s : string) : bool := negb (String.eqb s "").

(** Truth value of a [str | None]. *)
Definition truthy_opt (o : option string) : bool :=
  match o with
  | Some s => truthy s
  | None => false
  end.

(** [a or b] on [str | None]. *)
Definition or_ (a b : option string) : option string :=
  if truthy_opt a then a else b.

End Py.

(** ** Exceptions and results *)

(** The exceptions the adapter can let escape: [ValueError] with its
    message, [xml.etree.ElementTree.ParseError] (a [SyntaxError], so not
    caught by [except ValueError]) and whatever the transport raises. *)
Inductive exn : Type :=
| ValueError (msg : string)
| ParseError
| TransportError (msg : string).

Inductive result (A : Type) : Type :=
| Ok (a : A)
| Raise (e : exn).
Arguments Ok {A} a.
Arguments Raise {A} e.

Definition rbind {A B} (r : result A) (k : A -> result B) : result B :=
  match r with
  | Ok a => k a
  | Raise e => Raise e
  end.

(** [try: body except ValueError: handler]. *)
Definition try_except_ValueError {A} (body handler : result A) : result A :=
  match body with
  | Raise (ValueError _) => handler
  | other => other
  end.

#[global] Instance result_ret : MRet result := @Ok.
#[global] Instance result_bind : MBind result :=
  fun A B k r => rbind r k.

(** ** The storage interface types *)

Module storage.

Inductive ItemType : Type := FILE | FOLDER.

Definition ItemType_eqb (a b : ItemType) : bool :=
  match a, b with
  | FILE, FILE | FOLDER, FOLDER => true
  | _, _ => false
  end.

(** Modelled from the spec: the declaration of [storage.ItemType] is not
    part of the sources at hand; the specification gives the wire format
    of an item identifier as [{folder|file}:{path}], so the values of the
    two members are ["file"] and ["folder"]. *)
Definition ItemType_value (t : ItemType) : string :=
  match t with
  | FILE => "file"
  | FOLDER => "folder"
  end.

(** [storage.ItemType(v)]: lookup of a member by value. *)
Definition ItemType_of_value (v : string) : result ItemType :=
  if String.eqb v (ItemType_value FILE) then Ok FILE
  else if String.eqb v (ItemType_value FOLDER) then Ok FOLDER
  else Raise (ValueError ("'" ++ v ++ "' is not a valid ItemType")).

Record ItemResult : Type := mkItemResult {
  item_id : string;
  item_name : string;
  item_type : ItemType
}.

Record ItemSampleResult : Type := mkItemSampleResult {
  items : list ItemResult
}.

End storage.

(** ** Element trees *)

Module ET.

(** An [xml.etree.ElementTree.Element]: the tag in Clark notation
    ([{namespace}local]), the text ([None] when there is none) and the
    children in document order. *)
#[warnings="-register-all"]
Inductive Element : Type :=
| mkElement (tag : string) (text : option string) (children : list Element).

Definition tag (e : Element) : string :=
  match e with mkElement t _ _ => t end.
Definition text (e : Element) : option string :=
  match e with mkElement _ x _ => x end.
Definition children (e : Element) : list Element :=
  match e with mkElement _ _ cs => cs end.

(** [e.iter()]: the element and all its descendants, in document order. *)
Fixpoint iter (e : Element) : list Element :=
  match e with
  | mkElement _ _ cs => e :: List.flat_map iter cs
  end.

Definition has_tag (t : string) (e : Element) : bool := String.eqb (tag e) t.

(** The prefix [d:] of a path is bound to the namespace [DAV:]. *)
Definition dav (local : string) : string := "{DAV:}" ++ local.

(** [e.findall("d:name", ns)]: the children with that tag. *)
Definition findall_child (t : string) (e : Element) : list Element :=
  List.filter (has_tag t) (children e).

(** [e.find("d:name", ns)]: the first child with that tag. *)
Definition find_child (t : string) (e : Element) : option Element :=
  head (findall_child t e).

(** The steps [.//d:name]: the proper descendants with that tag. *)
Definition findall_descendant (t : string) (e : Element) : list Element :=
  List.filter (has_tag t) (List.flat_map iter (children e)).

(** [e.find(".//d:name", ns)]. *)
Definition find_descendant (t : string) (e : Element) : option Element :=
  head (findall_descendant t e).

(** [e.find(".//d:outer/d:inner", ns)]. *)
Definition find_descendant_child (outer inner : string) (e : Element)
  : option Element :=
  head (List.flat_map (findall_child inner) (findall_descendant outer e)).

End ET.

(** ** Requests and the network monad *)

Record Request : Type := mkRequest {
  uri_path : string;
  headers : gmap string string;
  content : string
}.

(** An operation reads the requests issued so far and extends them. *)
Definition M (A : Type) : Type := list Request -> result A * list Request.

Definition ret {A} (a : A) : M A := fun log => (Ok a, log).
Definition raise {A} (e : exn) : M A := fun log => (Raise e, log).
Definition lift {A} (r : result A) : M A := fun log => (r, log).
Definition bind {A B} (m : M A) (k : A -> M B) : M B :=
  fun log =>
    match m log with
    | (Ok a, log') => k a log'
    | (Raise e, log') => (Raise e, log')
    end.

#[global] Instance M_ret : MRet M := @ret.
#[global] Instance M_bind : MBind M := fun A B k m => bind m k.

(** ** Request bodies *)

Definition dq : string := String (ascii_of_nat 34) EmptyString.
Definition nl : string := String (ascii_of_nat 10) EmptyString.

Definition xml_declaration : string :=
  "<?xml version=" ++ dq ++ "1.0" ++ dq ++ " encoding=" ++ dq ++ "UTF-8"
  ++ dq ++ "?>" ++ nl.

Definition propfind_open : string :=
  "<d:propfind xmlns:d=" ++ dq ++ "DAV:" ++ dq ++ ">" ++ nl.

Definition _BUILD_PROPFIND_CURRENT_USER_PRINCIPAL : string :=
  xml_declaration ++ propfind_open
  ++ "    <d:prop>" ++ nl
  ++ "        <d:current-user-principal/>" ++ nl
  ++ "    </d:prop>" ++ nl
  ++ "</d:propfind>".

Definition _BUILD_PROPFIND_DISPLAYNAME : string :=
  xml_declaration ++ propfind_open
  ++ "    <d:prop>" ++ nl
  ++ "        <d:displayname/>" ++ nl
  ++ "    </d:prop>" ++ nl
  ++ "</d:propfind>".

Definition _BUILD_PROPFIND_ALLPROPS : string :=
  xml_declaration ++ propfind_open
  ++ "    <d:allprop/>" ++ nl
  ++ "</d:propfind>".

(** ** The item identifier codec *)

Definition _make_item_id (item_type : storage.ItemType) (path : string)
  : string :=
  storage.ItemType_value item_type ++ ":" ++ path.

Definition _parse_item_id (item_id : string)
  : result (storage.ItemType * string) :=
  if negb (Py.truthy item_id) then Ok (storage.FOLDER, "/")
  else
    match Py.split_max1 ":" item_id with
    | [_type; _path] =>
        ty ← storage.ItemType_of_value _type; Ok (ty, _path)
    | _ => Raise (ValueError "not enough values to unpack (expected 2, got 1)")
    end.

Definition _owncloud_root_id : string := _make_item_id storage.FOLDER "/".

(** The path of an entry of a listing: the path that its identifier
    encodes. *)
Definition entry_path (item : storage.ItemResult) : result string :=
  '(_, path) ← _parse_item_id (storage.item_id item); Ok path.

(** [for x in l: body] over a state that the body may replace; a body
    that returns the state unchanged is a [continue]. *)
Fixpoint for_each {A S : Type} (l : list A) (body : A -> S -> result S)
  (s : S) : result S :=
  match l with
  | [] => Ok s
  | x :: l' => s' ← body x s; for_each l' body s'
  end.

(** [e.text if e is not None and e.text else None]: the text of an
    element that was found and whose text is not empty. *)
Definition text_of_found (o : option ET.Element) : option string :=
  match o with
  | Some e =>
      match ET.text e with
      | Some t => if Py.truthy t then Some t else None
      | None => None
      end
  | None => None
  end.

(** ** The specification's words

    The definitions of this module follow the sentences of the
    specification, to be compared with the adapter's code below. *)

Module Spec.

(** The segments of a slash-delimited path that are not empty; the last
    of them, when there is one. *)
Definition nonempty_segments (path : string) : list string :=
  List.filter Py.truthy (Py.split "/" path).

Definition last_nonempty_segment (path : string) : option string :=
  last (nonempty_segments path).









(** An element of a multistatus that carries a [d:href] with text. *)
Definition has_href (response_element : ET.Element) : bool :=
  match ET.find_child (ET.dav "href") response_element with
  | Some href => Py.truthy_opt (ET.text href)
  | None => false
  end.

End Spec.

(** ** Stand-ins for the standard library

    Small executable versions of [unquote] and of the path of [urlparse]
    for plain URLs, and canned parsers and transports; the adapter is
    run with them on concrete inputs. *)

Module Fixture.

Definition hex_digit (a : ascii) : option nat :=
  let n := nat_of_ascii a in
  if (48 <=? n)%nat && (n <=? 57)%nat then Some (n - 48)
  else if (65 <=? n)%nat && (n <=? 70)%nat then Some (n - 55)
  else if (97 <=? n)%nat && (n <=? 102)%nat then Some (n - 87)
  else None.

(** Percent-decoding, byte by byte; an escape that is not two hex digits
    is left as it is. *)
Fixpoint unquote (s : string) : string :=
  match s with
  | EmptyString => EmptyString
  | String a s1 =>
      if Ascii.eqb a "%" then
        match s1 with
        | String h (String l rest) =>
            match hex_digit h, hex_digit l with
            | Some x, Some y => String (ascii_of_nat (16 * x + y)%nat) (unquote rest)
            | _, _ => String a (unquote s1)
            end
        | _ => String a (unquote s1)
        end
      else String a (unquote s1)
  end.

Definition is_scheme_char (a : ascii) : bool :=
  let n := nat_of_ascii a in
  ((97 <=? n)%nat && (n <=? 122)%nat) || ((65 <=? n)%nat && (n <=? 90)%nat)
  || ((48 <=? n)%nat && (n <=? 57)%nat)
  || Ascii.eqb a "+" || Ascii.eqb a "-" || Ascii.eqb a ".".

Definition is_alpha (a : ascii) : bool :=
  let n := nat_of_ascii a in
  ((97 <=? n)%nat && (n <=? 122)%nat) || ((65 <=? n)%nat && (n <=? 90)%nat).

(** The url without its scheme, when it starts with one. *)
Fixpoint after_scheme_chars (s : string) : option string :=
  match s with
  | EmptyString => None
  | String a s' =>
      if Ascii.eqb a ":" then Some s'
      else if is_scheme_char a then after_scheme_chars s'
      else None
  end.

Definition drop_scheme (url : string) : string :=
  match url with
  | String a _ =>
      if is_alpha a then default url (after_scheme_chars url) else url
  | EmptyString => url
  end.

(** The text up to the first character that satisfies [stop], and the
    text from that character on. *)
Fixpoint break_at (stop : ascii -> bool) (s : string) : string * string :=
  match s with
  | EmptyString => (EmptyString, EmptyString)
  | String a s' =>
      if stop a then (EmptyString, s)
      else let '(before, after) := break_at stop s' in (String a before, after)
  end.

Definition drop_netloc (url : string) : string :=
  match url with
  | String a (String b rest) =>
      if Ascii.eqb a "/" && Ascii.eqb b "/"
      then snd (break_at
                  (fun c => Ascii.eqb c "/" || Ascii.eqb c "?" || Ascii.eqb c "#")
                  rest)
      else url
  | _ => url
  end.

(** The path of a URL: what follows the scheme and the authority, up to
    the query or the fragment. *)
Definition urlparse_path (url : string) : result string :=
  let rest := drop_netloc (drop_scheme url) in
  Ok (fst (break_at (fun c => Ascii.eqb c "?" || Ascii.eqb c "#") rest)).

(** The scheme and the authority of a URL of the form
    [scheme://authority/...]. *)
Definition urlparse_scheme_netloc (url : string) : result (string * string) :=
  let '(scheme, rest) := break_at (fun c => Ascii.eqb c ":") url in
  match rest with
  | String _ (String a (String b after)) =>
      if Ascii.eqb a "/" && Ascii.eqb b "/"
      then Ok (scheme,
               fst (break_at
                      (fun c => Ascii.eqb c "/" || Ascii.eqb c "?"
                                || Ascii.eqb c "#") after))
      else Ok (scheme, EmptyString)
  | _ => Ok (EmptyString, EmptyString)
  end.

(** A parser that knows one document, and a transport with one answer. *)
Definition parse_as (root : ET.Element) (xml : string)
  : result ET.Element := Ok root.

Definition always_answer (xml : string) (log : list Request)
  (request : Request) : result string := Ok xml.

(** A multistatus for the folder [docs] of the account at [base]: the
    folder itself, an element without href and one file. *)
Definition base : string := "https://host/remote.php/dav/files/u/".


Definition prop (properties : list ET.Element) : ET.Element :=
  ET.mkElement (ET.dav "propstat") None
    [ET.mkElement (ET.dav "prop") None properties].

Definition collection : ET.Element :=
  ET.mkElement (ET.dav "resourcetype") None
    [ET.mkElement (ET.dav "collection") None []].

Definition folder_docs : ET.Element :=
  ET.mkElement (ET.dav "response") None
    [ET.mkElement (ET.dav "href") (Some "/remote.php/dav/files/u/docs/") [];
     prop [collection]].

Definition without_href : ET.Element :=
  ET.mkElement (ET.dav "response") None [prop [collection]].

Definition file_notes : ET.Element :=
  ET.mkElement (ET.dav "response") None
    [ET.mkElement (ET.dav "href")
       (Some "/remote.php/dav/files/u/docs/my%20notes.txt") [];
     prop [ET.mkElement (ET.dav "resourcetype") None []]].

Definition listing : ET.Element :=
  ET.mkElement (ET.dav "multistatus") None
    [folder_docs; without_href; file_notes].

Definition empty_multistatus : ET.Element :=
  ET.mkElement (ET.dav "multistatus") None [].

(** The answer of a server that names the principal, a parser that
    refuses every document, a transport that fails, and a URL parser
    that refuses an unbalanced bracket as [urlparse] does. *)
Definition principal_answer : ET.Element :=
  ET.mkElement (ET.dav "multistatus") None
    [ET.mkElement (ET.dav "response") None
       [prop [ET.mkElement (ET.dav "current-user-principal") None
                [ET.mkElement (ET.dav "href")
                   (Some "/remote.php/dav/principals/users/alice/") []];
              ET.mkElement (ET.dav "displayname") (Some "Alice") []]]].

Definition unparsable (xml : string) : result ET.Element := Raise ParseError.

Definition never_answers (log : list Request) (request : Request)
  : result string := Raise (TransportError "timed out").

Definition answers_once (xml : string) (log : list Request)
  (request : Request) : result string :=
  match log with
  | [] => Ok xml
  | _ :: _ => Raise (TransportError "connection reset")
  end.

Definition strict_urlparse_path (url : string) : result string :=
  if Py.contains "[" url && negb (Py.contains "]" url)
  then Raise (ValueError "Invalid IPv6 URL")
  else urlparse_path url.

Definition bad_href : ET.Element :=
  ET.mkElement (ET.dav "response") None
    [ET.mkElement (ET.dav "href") (Some "//[host/docs/broken") []].

Definition listing_with_bad_href : ET.Element :=
  ET.mkElement (ET.dav "multistatus") None
    [file_notes; bad_href; folder_docs].

Definition item_answer : ET.Element :=
  ET.mkElement (ET.dav "multistatus") None [folder_docs].

Definition root_entry : ET.Element :=
  ET.mkElement (ET.dav "response") None
    [ET.mkElement (ET.dav "href") (Some "/remote.php/dav/files/u/") [];
     prop [collection]].

End Fixture.

(** ** The adapter *)

(** The [dict] that [build_wb_config] returns: its three keys. *)
Record WbConfig : Type := mkWbConfig {
  folder : string;
  host : string;
  verify_ssl : bool
}.

(** The property [_fallback_username] as the class defines it. *)
Definition OwnCloudStorageImp_fallback_username : option string :=
  Some "default-username".

Section OwnCloudStorageImp.

(** [ET.fromstring], [urllib.parse.unquote] and the [path] of
    [urllib.parse.urlparse] belong to the standard library and are taken
    as they come; each of the two parsers may raise. *)
Variable ET_fromstring : string -> result ET.Element.
Variable unquote : string -> string.
Variable urlparse_path : string -> result string.

(** The [scheme] and the [netloc] of [urllib.parse.urlparse]. *)
Variable urlparse_scheme_netloc : string -> result (string * string).

(** [self.network]: the answer to a request may depend on the requests
    issued before it. *)
Variable network : list Request -> Request -> result string.

(** [self.config.external_api_url]. *)
Variable external_api_url : string.

(** The property [self._fallback_username : str | None]; the methods
    are read for any value of it, the class's own being
    [OwnCloudStorageImp_fallback_username]. *)
Variable _fallback_username : option string.

Definition PROPFIND (uri_path : string) (headers : gmap string string)
  (content : string) : M string :=
  fun log =>
    let request := mkRequest uri_path headers content in
    (network log request, (log ++ [request])%list).

Definition _strip_absolute_path (path : string) : string :=
  Py.lstrip "/" path.

Definition _parse_property (response_xml : string)
  (xpath : ET.Element -> option ET.Element) (error_message : string)
  : result string :=
  root ← ET_fromstring response_xml;
  match text_of_found (xpath root) with
  | Some t => Ok t
  | None => Raise (ValueError error_message)
  end.

Definition _parse_current_user_principal (response_xml : string)
  : result string :=
  _parse_property response_xml
    (ET.find_descendant_child (ET.dav "current-user-principal") (ET.dav "href"))
    "current-user-principal not found in response".

Definition _parse_displayname (response_xml : string) : result string :=
  try_except_ValueError
    (_parse_property response_xml
       (ET.find_descendant (ET.dav "displayname"))
       "displayname not found in response")
    (Ok "default-name").

Definition _parse_response_element (response_element : ET.Element)
  (path : string) : storage.ItemResult :=
  let resourcetype :=
    ET.find_descendant (ET.dav "resourcetype") response_element in
  let item_type :=
    match resourcetype with
    | Some rt =>
        match ET.find_child (ET.dav "collection") rt with
        | Some _ => storage.FOLDER
        | None => storage.FILE
        end
    | None => storage.FILE
    end in
  let displayname_element :=
    ET.find_descendant (ET.dav "displayname") response_element in
  let displayname :=
    match text_of_found displayname_element with
    | Some t => t
    | None => Py.last_field (Py.split "/" (Py.rstrip "/" path))
    end in
  storage.mkItemResult (_make_item_id item_type path) displayname item_type.

Definition _href_to_path (href : string) : result string :=
  parsed_href_path ← urlparse_path (unquote href);
  let href_path := Py.lstrip "/" parsed_href_path in
  base ← urlparse_path external_api_url;
  let base_path := Py.lstrip "/" (Py.rstrip "/" base) in
  let path :=
    if Py.startswith href_path base_path
    then Py.slice_from (String.length base_path) href_path
    else href_path in
  let path := Py.strip "/" path in
  Ok (if Py.truthy path then path else "/").

Definition depth (d : string) : gmap string string := {[ "Depth" := d ]}.

(** The first request of [get_external_account_id]. *)
Definition principal_request : Request :=
  mkRequest (_strip_absolute_path "") (depth "0")
    _BUILD_PROPFIND_CURRENT_USER_PRINCIPAL.

Definition get_external_account_id (auth_result_extras : gmap string string)
  : M string :=
  let headers := depth "0" in
  response_xml ← PROPFIND (_strip_absolute_path "") headers
                   _BUILD_PROPFIND_CURRENT_USER_PRINCIPAL;
  current_user_principal_url ←
    lift (try_except_ValueError
            (_parse_current_user_principal response_xml)
            (let username :=
               Py.or_ (auth_result_extras !! "username") _fallback_username in
             match username with
             | Some u =>
                 if Py.truthy u
                 then Ok ("/remote.php/dav/files/" ++ u ++ "/")
                 else Raise (ValueError
                        "Username is required for fallback but not provided.")
             | None =>
                 Raise (ValueError
                   "Username is required for fallback but not provided.")
             end));
  let current_user_principal_url :=
    Py.lstrip "/" current_user_principal_url in
  response_xml ← PROPFIND (_strip_absolute_path current_user_principal_url)
                   headers _BUILD_PROPFIND_DISPLAYNAME;
  lift (_parse_displayname response_xml).

Definition get_item_info (item_id : string) : M storage.ItemResult :=
  '(item_type, path) ← lift (_parse_item_id item_id);
  let url := _strip_absolute_path path in
  let headers := depth "0" in
  response_xml ← PROPFIND url headers _BUILD_PROPFIND_ALLPROPS;
  root ← lift (ET_fromstring response_xml);
  match ET.find_child (ET.dav "response") root with
  | None =>
      raise (ValueError "No response element found in PROPFIND response")
  | Some response_element =>
      ret (_parse_response_element response_element path)
  end.

(** The body of the loop of [list_child_items]. *)
Definition list_child_items_body (path : string)
  (item_type : option storage.ItemType) (response_element : ET.Element)
  (items : list storage.ItemResult) : result (list storage.ItemResult) :=
  match text_of_found (ET.find_child (ET.dav "href") response_element) with
  | None => Ok items
  | Some href =>
      item_path ← _href_to_path href;
      if String.eqb (Py.rstrip "/" item_path) (Py.rstrip "/" path)
      then Ok items
      else
        let item_result := _parse_response_element response_element item_path in
        match item_type with
        | Some t =>
            if negb (storage.ItemType_eqb (storage.item_type item_result) t)
            then Ok items
            else Ok (items ++ [item_result])%list
        | None => Ok (items ++ [item_result])%list
        end
  end.

Definition list_child_items (item_id : string) (page_cursor : string)
  (item_type : option storage.ItemType) : M storage.ItemSampleResult :=
  '(_item_type, path) ← lift (_parse_item_id item_id);
  let relative_path := _strip_absolute_path path in
  let headers := depth "1" in
  response_xml ← PROPFIND relative_path headers _BUILD_PROPFIND_ALLPROPS;
  root ← lift (ET_fromstring response_xml);
  items ← lift (for_each (ET.findall_child (ET.dav "response") root)
                  (list_child_items_body path item_type) []);
  ret (storage.mkItemSampleResult items).

Definition list_root_items (page_cursor : string)
  : M storage.ItemSampleResult :=
  list_child_items _owncloud_root_id page_cursor None.

(** [build_wb_config]: no request is awaited. *)
Definition build_wb_config : M WbConfig :=
  let base_url := Py.rstrip "/" external_api_url in
  '(scheme, netloc) ← lift (urlparse_scheme_netloc base_url);
  let root_host := scheme ++ "://" ++ netloc in
  let folder_path := "" in
  ret (mkWbConfig folder_path root_host true).

(** Unfolding of the monad of the operations. *)
Ltac run_op :=
  unfold mbind, M_bind, bind, lift, ret, raise, PROPFIND; simpl.

(** ** Facts about the string methods *)

Lemma append_nil_r (s : string) : s ++ "" = s.
Proof.
  induction s as [|a s IH]; [reflexivity|].
  change (String a s ++ "") with (String a (s ++ "")). congruence.
Qed.

Lemma split_not_nil (c : ascii) (s : string) : Py.split c s <> [].
Proof.
  destruct s as [|a s]; simpl; [discriminate|].
  destruct (Ascii.eqb a c); [discriminate|].
  destruct (Py.split c s); discriminate.
Qed.

Lemma split_app_sep (c : ascii) (s t : string) :
  Py.split c (s ++ String c t) = (Py.split c s ++ Py.split c t)%list.
Proof.
  induction s as [|a s IH]; simpl.
  - rewrite Ascii.eqb_refl. reflexivity.
  - rewrite IH. destruct (Ascii.eqb a c); [reflexivity|].
    destruct (Py.split c s) eqn:Es; [|reflexivity].
    exfalso. exact (split_not_nil c s Es).
Qed.

Lemma rstrip_cons_ne (c a : ascii) (s : string) :
  Ascii.eqb a c = false ->
  Py.rstrip c (String a s) = String a (Py.rstrip c s).
Proof.
  intros E. simpl. rewrite E. destruct (Py.rstrip c s); reflexivity.
Qed.

Lemma rstrip_cons_eq (c : ascii) (s : string) :
  Py.rstrip c (String c s) =
  match Py.rstrip c s with
  | EmptyString => EmptyString
  | r => String c r
  end.
Proof.
  simpl. rewrite Ascii.eqb_refl. destruct (Py.rstrip c s); reflexivity.
Qed.

(** What [rstrip] removes is a run of the character. *)
Lemma rstrip_tail (c : ascii) (s : string) :
  exists t, s = Py.rstrip c s ++ t /\ Py.lstrip c t = "".
Proof.
  induction s as [|a s (t & Hs & Ht)].
  - exists "". split; reflexivity.
  - simpl. destruct (Py.rstrip c s) as [|b r] eqn:Er; rewrite ?Er in Hs.
    + destruct (Ascii.eqb a c) eqn:E.
      * exists (String a s). split; [reflexivity|].
        simpl. rewrite E. subst s. exact Ht.
      * exists t. split; [|assumption]. subst s. reflexivity.
    + exists t. split; [|assumption].
      change (String a (String b r) ++ t) with (String a (String b r ++ t)).
      congruence.
Qed.

Lemma rstrip_idem (c : ascii) (s : string) :
  Py.rstrip c (Py.rstrip c s) = Py.rstrip c s.
Proof.
  induction s as [|a s IH]; [reflexivity|].
  simpl. destruct (Py.rstrip c s) as [|b r] eqn:Er.
  - destruct (Ascii.eqb a c) eqn:E; [reflexivity|].
    simpl. rewrite E. reflexivity.
  - change (Py.rstrip c (String a (String b r))) with
      (match Py.rstrip c (String b r) with
       | EmptyString =>
           if Ascii.eqb a c then EmptyString else String a EmptyString
       | String b' r' => String a (String b' r')
       end).
    rewrite IH. reflexivity.
Qed.

Lemma split_all_sep (c : ascii) (t : string) :
  Py.lstrip c t = "" -> List.filter Py.truthy (Py.split c t) = [].
Proof.
  induction t as [|a t IH]; simpl; [reflexivity|].
  destruct (Ascii.eqb a c); [|discriminate].
  intros H. simpl. auto.
Qed.

(** A string that [rstrip] leaves alone and that is not empty ends with a
    field that is not empty. *)
Lemma last_field_split_fixed (c : ascii) (r : string) :
  Py.rstrip c r = r -> r <> "" ->
  Py.truthy (Py.last_field (Py.split c r)) = true.
Proof.
  unfold Py.last_field.
  induction r as [|a r IH]; intros Hfix Hne; [congruence|].
  simpl in Hfix. destruct (Py.rstrip c r) as [|b r'] eqn:Er.
  - destruct (Ascii.eqb a c) eqn:E; [discriminate|].
    injection Hfix as <-. simpl. rewrite E. reflexivity.
  - injection Hfix as Hr. simpl.
    assert (Hlast : Py.truthy (List.last (Py.split c r) "") = true)
      by (apply IH; [exact Hr | rewrite <- Hr; discriminate]).
    destruct (Py.split c r) as [|h t] eqn:Es;
      [exfalso; exact (split_not_nil c r Es)|].
    destruct (Ascii.eqb a c).
    + exact Hlast.
    + destruct t as [|h' t]; [reflexivity | exact Hlast].
Qed.

Lemma last_filter_truthy (l : list string) :
  l <> [] -> Py.truthy (List.last l "") = true ->
  last (List.filter Py.truthy l) = Some (List.last l "").
Proof.
  induction l as [|x l IH]; intros Hne Hlast; [congruence|].
  destruct l as [|y l].
  - simpl in *. rewrite Hlast. reflexivity.
  - change (List.last (x :: y :: l) "") with (List.last (y :: l) "") in *.
    specialize (IH ltac:(discriminate) Hlast).
    change (List.filter Py.truthy (x :: y :: l)) with
      (if Py.truthy x then x :: List.filter Py.truthy (y :: l)
       else List.filter Py.truthy (y :: l)).
    destruct (Py.truthy x); [|exact IH].
    destruct (List.filter Py.truthy (y :: l)); [discriminate | exact IH].
Qed.

(** The fields that are not empty are those of the [rstrip]ped string. *)
Lemma nonempty_segments_rstrip (path : string) :
  Spec.nonempty_segments path = Spec.nonempty_segments (Py.rstrip "/" path).
Proof.
  unfold Spec.nonempty_segments.
  destruct (rstrip_tail "/" path) as (t & Hs & Ht).
  rewrite Hs at 1. destruct t as [|a t].
  - rewrite append_nil_r. reflexivity.
  - simpl in Ht. destruct (Ascii.eqb_spec a "/") as [->|]; [|discriminate].
    rewrite split_app_sep, List.filter_app, (split_all_sep _ _ Ht).
    apply app_nil_r.
Qed.

Lemma last_field_last_nonempty_segment (path : string) :
  Py.last_field (Py.split "/" (Py.rstrip "/" path)) =
  default "" (Spec.last_nonempty_segment path).
Proof.
  unfold Spec.last_nonempty_segment.
  rewrite nonempty_segments_rstrip. unfold Spec.nonempty_segments.
  destruct (Py.rstrip "/" path) as [|b r] eqn:Er; [reflexivity|].
  rewrite last_filter_truthy.
  - reflexivity.
  - apply split_not_nil.
  - apply last_field_split_fixed; [|discriminate].
    rewrite <- Er. apply rstrip_idem.
Qed.

(** ** The name of a parsed response element *)

Lemma text_of_found_None (o : option ET.Element) :
  o = None \/ (exists e, o = Some e /\ Py.truthy_opt (ET.text e) = false) ->
  text_of_found o = None.
Proof.
  intros [-> | (e & -> & H)]; [reflexivity|].
  unfold text_of_found. destruct (ET.text e) as [t|]; [|reflexivity].
  simpl in H. rewrite H. reflexivity.
Qed.

(** C2, as amended: when the response element has no [d:displayname]
    element, or one without text, the name of the parsed item is the last
    segment of the slash-delimited path that is not empty, for a path
    that has one; for a path that has none (the empty path, or slashes
    only, as the root ["/"]) the name is the empty string. *)
Theorem parse_response_element_name_is_last_segment
  (response_element : ET.Element) (path : string) :
  (let displayname :=
     ET.find_descendant (ET.dav "displayname") response_element in
   displayname = None \/
   exists e, displayname = Some e /\ Py.truthy_opt (ET.text e) = false) ->
  (forall segment,
     Spec.last_nonempty_segment path = Some segment ->
     storage.item_name (_parse_response_element response_element path) =
     segment)
  /\ (Spec.last_nonempty_segment path = None ->
      storage.item_name (_parse_response_element response_element path) =
      "").
Proof.
  intros H. apply text_of_found_None in H.
  unfold _parse_response_element. simpl. rewrite H.
  rewrite last_field_last_nonempty_segment.
  split; [intros segment ->|intros ->]; reflexivity.
Qed.

(** ** The item identifier codec *)

Lemma split_max1_first (token rest : string) :
  Py.contains ":" token = false ->
  Py.split_max1 ":" (token ++ String ":" rest) = [token; rest].
Proof.
  induction token as [|a token IH]; intros H; [reflexivity|].
  simpl in H. apply orb_false_elim in H as [Ha Ht].
  change (String a token ++ String ":" rest)
    with (String a (token ++ String ":" rest)).
  simpl. rewrite Ha, (IH Ht). reflexivity.
Qed.

Lemma split_max1_no_sep (s : string) :
  Py.contains ":" s = false -> Py.split_max1 ":" s = [s].
Proof.
  induction s as [|a s IH]; intros H; [reflexivity|].
  simpl in H. apply orb_false_elim in H as [Ha Hs].
  simpl. rewrite Ha, (IH Hs). reflexivity.
Qed.

Lemma parse_item_id_split (token rest : string) :
  Py.contains ":" token = false ->
  _parse_item_id (token ++ String ":" rest) =
  (ty ← storage.ItemType_of_value token; Ok (ty, rest)).
Proof.
  intros H. unfold _parse_item_id.
  rewrite (split_max1_first _ _ H).
  destruct token; reflexivity.
Qed.

Lemma parse_make_item_id (item_type : storage.ItemType) (path : string) :
  _parse_item_id (_make_item_id item_type path) = Ok (item_type, path).
Proof.
  unfold _make_item_id.
  change (":" ++ path) with (String ":" path).
  rewrite parse_item_id_split by (destruct item_type; reflexivity).
  destruct item_type; reflexivity.
Qed.

(** C4: decoding the identifier that encodes a type and a path gives the
    type and the path back. *)
Theorem parse_item_id_make_item_id :
  forall (item_type : storage.ItemType) (path : string),
    _parse_item_id (_make_item_id item_type path) = Ok (item_type, path).
Proof.
  intros item_type path. apply parse_make_item_id.
Qed.

(** C5: the empty identifier decodes to the root folder; any other one is
    split at its first colon only; an identifier without a colon, or
    whose type token is not a value of [ItemType], is refused with a
    [ValueError] (the specification's [InvalidItemId]). *)
Theorem parse_item_id_cases :
  _parse_item_id "" = Ok (storage.FOLDER, "/")
  /\ (forall token rest : string,
        Py.contains ":" token = false ->
        _parse_item_id (token ++ ":" ++ rest) =
        (ty ← storage.ItemType_of_value token; Ok (ty, rest)))
  /\ _parse_item_id "folder:a:b" = Ok (storage.FOLDER, "a:b")
  /\ (forall item_id : string,
        item_id <> "" -> Py.contains ":" item_id = false ->
        exists msg, _parse_item_id item_id = Raise (ValueError msg))
  /\ (forall token rest : string,
        Py.contains ":" token = false ->
        (forall t, token <> storage.ItemType_value t) ->
        exists msg,
          _parse_item_id (token ++ ":" ++ rest) = Raise (ValueError msg))
  /\ (exists msg, _parse_item_id "bogus" = Raise (ValueError msg)).
Proof.
  split; [reflexivity|].
  split; [intros token rest H; apply (parse_item_id_split _ _ H)|].
  split; [reflexivity|].
  split.
  { intros item_id Hne H. unfold _parse_item_id.
    rewrite (split_max1_no_sep _ H).
    destruct item_id; [congruence|]. eexists. reflexivity. }
  split; [|eexists; reflexivity].
  intros token rest H Hnot.
  change (":" ++ rest) with (String ":" rest).
  rewrite (parse_item_id_split _ _ H).
  unfold storage.ItemType_of_value.
  destruct (String.eqb_spec token (storage.ItemType_value storage.FILE)) as [E|_];
    [destruct (Hnot _ E)|].
  destruct (String.eqb_spec token (storage.ItemType_value storage.FOLDER)) as [E|_];
    [destruct (Hnot _ E)|].
  eexists. reflexivity.
Qed.

(** ** From an href to a path *)





Lemma lstrip_rstrip_comm (c : ascii) (s : string) :
  Py.lstrip c (Py.rstrip c s) = Py.rstrip c (Py.lstrip c s).
Proof.
  induction s as [|a s IH]; [reflexivity|].
  destruct (Ascii.eqb_spec a c) as [->|Hne].
  - rewrite rstrip_cons_eq. simpl Py.lstrip at 2.
    rewrite Ascii.eqb_refl, <- IH.
    destruct (Py.rstrip c s) as [|b r]; [reflexivity|].
    simpl. rewrite Ascii.eqb_refl. reflexivity.
  - apply Ascii.eqb_neq in Hne.
    simpl Py.lstrip at 2. rewrite Hne, (rstrip_cons_ne _ _ _ Hne).
    simpl. rewrite Hne. reflexivity.
Qed.

Lemma all_sep_rstrip (c : ascii) (t : string) :
  Py.lstrip c t = "" -> Py.rstrip c t = "".
Proof.
  induction t as [|a t IH]; [reflexivity|].
  simpl. destruct (Ascii.eqb a c); [|discriminate].
  intros H. rewrite (IH H). reflexivity.
Qed.

Lemma startswith_app (r t : string) : Py.startswith (r ++ t) r = true.
Proof.
  induction r as [|a r IH]; [destruct t; reflexivity|].
  change (String a r ++ t) with (String a (r ++ t)).
  simpl. rewrite Ascii.eqb_refl. exact IH.
Qed.

Lemma slice_from_app (r t : string) :
  Py.slice_from (String.length r) (r ++ t) = t.
Proof.
  induction r as [|a r IH]; [reflexivity|].
  change (String a r ++ t) with (String a (r ++ t)). exact IH.
Qed.

(** The path of [href] relative to a base of the same path is the root. *)
Lemma href_to_path_of_base (href p : string) :
  urlparse_path (unquote href) = Ok p ->
  urlparse_path external_api_url = Ok p ->
  _href_to_path href = Ok "/".
Proof.
  intros Hh Hb. unfold _href_to_path. rewrite Hh. simpl. rewrite Hb. simpl.
  rewrite lstrip_rstrip_comm.
  destruct (rstrip_tail "/" (Py.lstrip "/" p)) as (t & Hs & Ht).
  remember (Py.rstrip "/" (Py.lstrip "/" p)) as r eqn:Hr.
  rewrite Hs, startswith_app, slice_from_app.
  unfold Py.strip. rewrite (all_sep_rstrip _ _ Ht). reflexivity.
Qed.



(** ** The operations *)

(** C7: when the multistatus that answers the PROPFIND of
    [get_item_info] has no [d:response] element, the operation fails with
    the [ValueError] that reports it (the specification's
    [ItemNotFound]). *)
Theorem get_item_info_no_response_element
  (item_id : string) (log : list Request) (item_type : storage.ItemType)
  (path response_xml : string) (root : ET.Element) :
  _parse_item_id item_id = Ok (item_type, path) ->
  network log (mkRequest (_strip_absolute_path path) (depth "0")
                 _BUILD_PROPFIND_ALLPROPS) = Ok response_xml ->
  ET_fromstring response_xml = Ok root ->
  ET.findall_child (ET.dav "response") root = [] ->
  fst (get_item_info item_id log) =
  Raise (ValueError "No response element found in PROPFIND response").
Proof.
  intros Hid Hnet Hxml Hnone.
  unfold get_item_info. run_op. rewrite Hid. simpl. rewrite Hnet, Hxml.
  unfold ET.find_child. rewrite Hnone. reflexivity.
Qed.

(** C1: when the answer to the first PROPFIND has no
    [current-user-principal] href, the extra authentication results have
    no user name (or an empty one) and the fallback user name is absent
    (or empty), [get_external_account_id] fails with the [ValueError]
    that asks for a user name (the specification's [MissingUsername]),
    and no second request is sent. *)
Theorem get_external_account_id_missing_username
  (auth_result_extras : gmap string string) (log : list Request)
  (response_xml : string) (root : ET.Element) :
  network log principal_request = Ok response_xml ->
  ET_fromstring response_xml = Ok root ->
  text_of_found
    (ET.find_descendant_child (ET.dav "current-user-principal")
       (ET.dav "href") root) = None ->
  Py.truthy_opt (auth_result_extras !! "username") = false ->
  Py.truthy_opt _fallback_username = false ->
  get_external_account_id auth_result_extras log =
  (Raise (ValueError "Username is required for fallback but not provided."),
   (log ++ [principal_request])%list).
Proof.
  intros Hnet Hxml Hnone Hextras Hfallback.
  unfold get_external_account_id. run_op.
  fold principal_request. rewrite Hnet.
  unfold _parse_current_user_principal, _parse_property.
  rewrite Hxml. simpl. rewrite Hnone. simpl.
  unfold Py.or_. rewrite Hextras.
  destruct _fallback_username as [u|]; [|reflexivity].
  simpl in Hfallback. rewrite Hfallback. reflexivity.
Qed.

Lemma get_external_account_id_fallback_log
  (auth_result_extras : gmap string string) (log : list Request)
  (response_xml : string) (root : ET.Element) :
  network log principal_request = Ok response_xml ->
  ET_fromstring response_xml = Ok root ->
  text_of_found
    (ET.find_descendant_child (ET.dav "current-user-principal")
       (ET.dav "href") root) = None ->
  auth_result_extras !! "username" = Some "alice" ->
  snd (get_external_account_id auth_result_extras log) =
  (log ++ [principal_request;
           mkRequest "remote.php/dav/files/alice/" (depth "0")
             _BUILD_PROPFIND_DISPLAYNAME])%list.
Proof.
  intros Hnet Hxml Hnone Hextras.
  unfold get_external_account_id. run_op.
  fold principal_request. rewrite Hnet.
  unfold _parse_current_user_principal, _parse_property.
  rewrite Hxml. simpl. rewrite Hnone. simpl.
  rewrite Hextras. simpl.
  rewrite <- List.app_assoc. simpl.
  match goal with
  | |- context [network ?l ?r] => destruct (network l r)
  end; reflexivity.
Qed.

(** C8: when the principal is not found and the extra authentication
    results name the user [alice], the second PROPFIND, with the
    displayname body and [Depth: 0], goes to
    [remote.php/dav/files/alice/]. The two requests are written out. *)
Theorem get_external_account_id_fallback_request
  (auth_result_extras : gmap string string) (log : list Request)
  (response_xml : string) (root : ET.Element) :
  let q := String "034"%char "" in
  let n := String "010"%char "" in
  let principal_body :=
    "<?xml version=" ++ q ++ "1.0" ++ q ++ " encoding=" ++ q ++ "UTF-8" ++ q
    ++ "?>" ++ n ++ "<d:propfind xmlns:d=" ++ q ++ "DAV:" ++ q ++ ">" ++ n
    ++ "    <d:prop>" ++ n
    ++ "        <d:current-user-principal/>" ++ n
    ++ "    </d:prop>" ++ n
    ++ "</d:propfind>" in
  let displayname_body :=
    "<?xml version=" ++ q ++ "1.0" ++ q ++ " encoding=" ++ q ++ "UTF-8" ++ q
    ++ "?>" ++ n ++ "<d:propfind xmlns:d=" ++ q ++ "DAV:" ++ q ++ ">" ++ n
    ++ "    <d:prop>" ++ n
    ++ "        <d:displayname/>" ++ n
    ++ "    </d:prop>" ++ n
    ++ "</d:propfind>" in
  let first := mkRequest "" {[ "Depth" := "0" ]} principal_body in
  let second :=
    mkRequest "remote.php/dav/files/alice/" {[ "Depth" := "0" ]}
      displayname_body in
  network log first = Ok response_xml ->
  ET_fromstring response_xml = Ok root ->
  text_of_found
    (ET.find_descendant_child (ET.dav "current-user-principal")
       (ET.dav "href") root) = None ->
  auth_result_extras !! "username" = Some "alice" ->
  snd (get_external_account_id auth_result_extras log) =
  (log ++ [first; second])%list.
Proof.
  intros q n principal_body displayname_body first second.
  exact (get_external_account_id_fallback_log
           auth_result_extras log response_xml root).
Qed.

(** C9: the type tag of the identifier is not used: [get_item_info] and
    [list_child_items] send the same request and give the same result
    for ["file:" ++ p] and ["folder:" ++ p]. *)
Theorem item_type_tag_is_ignored
  (p page_cursor : string) (item_type : option storage.ItemType)
  (log : list Request) :
  get_item_info ("file:" ++ p) log = get_item_info ("folder:" ++ p) log
  /\ list_child_items ("file:" ++ p) page_cursor item_type log =
     list_child_items ("folder:" ++ p) page_cursor item_type log.
Proof.
  change ("file:" ++ p) with (_make_item_id storage.FILE p).
  change ("folder:" ++ p) with (_make_item_id storage.FOLDER p).
  unfold get_item_info, list_child_items.
  rewrite !parse_make_item_id. split; reflexivity.
Qed.

(** ** The loop of [list_child_items] *)

Lemma for_each_invariant {A S : Type} (P : S -> Prop)
  (body : A -> S -> result S) (l : list A) :
  (forall x s s', body x s = Ok s' -> P s -> P s') ->
  forall s s', P s -> for_each l body s = Ok s' -> P s'.
Proof.
  intros Hbody. induction l as [|x l IH]; intros s s' Hs Hrun; simpl in Hrun.
  - congruence.
  - destruct (body x s) as [s1|e] eqn:Hx; [|discriminate].
    exact (IH _ _ (Hbody _ _ _ Hx Hs) Hrun).
Qed.

Lemma for_each_filter {A S : Type} (keep : A -> bool)
  (body : A -> S -> result S) (l : list A) :
  (forall x s, keep x = false -> body x s = Ok s) ->
  forall s, for_each l body s = for_each (List.filter keep l) body s.
Proof.
  intros Hskip. induction l as [|x l IH]; intros s; [reflexivity|].
  simpl. destruct (keep x) eqn:Hx.
  - simpl. destruct (body x s) as [s1|e]; [apply IH | reflexivity].
  - rewrite (Hskip _ _ Hx). apply IH.
Qed.

Lemma text_of_found_has_href (response_element : ET.Element) :
  Spec.has_href response_element = false ->
  text_of_found (ET.find_child (ET.dav "href") response_element) = None.
Proof.
  unfold Spec.has_href, text_of_found.
  destruct (ET.find_child (ET.dav "href") response_element) as [h|];
    [|reflexivity].
  destruct (ET.text h) as [t|]; [|reflexivity].
  simpl. intros ->. reflexivity.
Qed.

Lemma list_child_items_body_skip (path : string)
  (item_type : option storage.ItemType) (response_element : ET.Element)
  (items : list storage.ItemResult) :
  Spec.has_href response_element = false ->
  list_child_items_body path item_type response_element items = Ok items.
Proof.
  intros H. unfold list_child_items_body.
  rewrite (text_of_found_has_href _ H). reflexivity.
Qed.

(** An entry that is not the queried container. *)
Lemma entry_path_parse_response_element (response_element : ET.Element)
  (item_path : string) :
  entry_path (_parse_response_element response_element item_path) =
  Ok item_path.
Proof.
  unfold entry_path, _parse_response_element. simpl.
  rewrite parse_make_item_id. reflexivity.
Qed.

Lemma list_child_items_body_not_self (path : string)
  (item_type : option storage.ItemType) (response_element : ET.Element)
  (items items' : list storage.ItemResult) :
  list_child_items_body path item_type response_element items = Ok items' ->
  Forall (fun item => exists p, entry_path item = Ok p
                      /\ Py.rstrip "/" p <> Py.rstrip "/" path) items ->
  Forall (fun item => exists p, entry_path item = Ok p
                      /\ Py.rstrip "/" p <> Py.rstrip "/" path) items'.
Proof.
  unfold list_child_items_body. intros Hbody Hitems.
  destruct (text_of_found _) as [href|]; [|congruence].
  destruct (_href_to_path href) as [item_path|e]; [|discriminate].
  simpl in Hbody.
  destruct (String.eqb_spec (Py.rstrip "/" item_path) (Py.rstrip "/" path))
    as [Heq|Hne]; [congruence|].
  assert (Hnew : Forall
            (fun item => exists p, entry_path item = Ok p
                         /\ Py.rstrip "/" p <> Py.rstrip "/" path)
            (items ++ [_parse_response_element response_element item_path])).
  { apply Forall_app. split; [exact Hitems|].
    constructor; [|constructor]. exists item_path. split; [|exact Hne].
    apply entry_path_parse_response_element. }
  destruct item_type as [t|].
  - destruct (negb _); congruence.
  - congruence.
Qed.

(** The page that [list_child_items] returns has no entry whose path,
    without its trailing slashes, is as a string the path of the queried
    identifier (with or without its trailing slashes). The paths of the
    entries have no leading slash: when the queried path has one, the
    comparison does not recognise the queried folder. *)
Theorem list_child_items_excludes_self
  (item_id page_cursor : string) (item_type : option storage.ItemType)
  (log log' : list Request) (page : storage.ItemSampleResult) :
  list_child_items item_id page_cursor item_type log = (Ok page, log') ->
  exists (t : storage.ItemType) (path : string),
    _parse_item_id item_id = Ok (t, path)
    /\ Forall (fun item =>
                 exists p, entry_path item = Ok p
                   /\ Py.rstrip "/" p <> Py.rstrip "/" path
                   /\ Py.rstrip "/" p <> path)
         (storage.items page).
Proof.
  unfold list_child_items. run_op. intros Hrun.
  destruct (_parse_item_id item_id) as [[t path]|e]; [|discriminate].
  exists t, path. split; [reflexivity|]. simpl in Hrun.
  destruct (network _ _) as [response_xml|e]; [|discriminate].
  destruct (ET_fromstring response_xml) as [root|e]; [|discriminate].
  destruct (for_each _ _ _) as [items|e] eqn:Hloop; [|discriminate].
  injection Hrun as <- _. simpl.
  eapply Forall_impl.
  - eapply (for_each_invariant
              (Forall (fun item => exists p, entry_path item = Ok p
                         /\ Py.rstrip "/" p <> Py.rstrip "/" path)));
      [|constructor|exact Hloop].
    intros x s s'. apply list_child_items_body_not_self.
  - intros item (p & Hp & Hne). exists p. repeat split; [exact Hp|exact Hne|].
    intros Heq. apply Hne. rewrite <- Heq. symmetry. apply rstrip_idem.
Qed.

(** C10: a [d:response] element whose [d:href] is absent or has no text
    is passed over by the loop of [list_child_items] without a change of
    the items and without an exception, so the page is the one that the
    elements with an href give. *)
Theorem list_child_items_skips_missing_href
  (item_id page_cursor : string) (item_type : option storage.ItemType)
  (log : list Request) (t : storage.ItemType) (path response_xml : string)
  (root : ET.Element) :
  _parse_item_id item_id = Ok (t, path) ->
  network log (mkRequest (_strip_absolute_path path) (depth "1")
                 _BUILD_PROPFIND_ALLPROPS) = Ok response_xml ->
  ET_fromstring response_xml = Ok root ->
  (forall response_element items,
     Spec.has_href response_element = false ->
     list_child_items_body path item_type response_element items = Ok items)
  /\ fst (list_child_items item_id page_cursor item_type log) =
     (items ← for_each
                (List.filter Spec.has_href
                   (ET.findall_child (ET.dav "response") root))
                (list_child_items_body path item_type) [];
      Ok (storage.mkItemSampleResult items)).
Proof.
  intros Hid Hnet Hxml.
  split; [intros e items; apply list_child_items_body_skip|].
  unfold list_child_items. run_op. rewrite Hid. simpl. rewrite Hnet, Hxml.
  rewrite (for_each_filter Spec.has_href)
    by (intros x s; apply list_child_items_body_skip).
  destruct (for_each _ _ _); reflexivity.
Qed.

(** ** More about the codec and the href normalisation *)

Lemma split_max1_pair (s token rest : string) :
  Py.split_max1 ":" s = [token; rest] -> s = token ++ String ":" rest.
Proof.
  revert token. induction s as [|a s IH]; intros token H; [discriminate|].
  simpl in H. destruct (Ascii.eqb_spec a ":") as [->|_].
  - injection H as <- <-. reflexivity.
  - destruct (Py.split_max1 ":" s) as [|h [|r [|]]]; try discriminate.
    injection H as <- <-.
    change (String a h ++ String ":" r) with (String a (h ++ String ":" r)).
    f_equal. apply IH. reflexivity.
Qed.

Lemma ItemType_of_value_inv (v : string) (t : storage.ItemType) :
  storage.ItemType_of_value v = Ok t -> v = storage.ItemType_value t.
Proof.
  unfold storage.ItemType_of_value.
  destruct (String.eqb_spec v (storage.ItemType_value storage.FILE));
    [congruence|].
  destruct (String.eqb_spec v (storage.ItemType_value storage.FOLDER));
    [congruence | discriminate].
Qed.

(** An identifier that is not empty and that decodes is the encoding of
    what it decodes to; the empty one decodes to the root folder, whose
    encoding is ["folder:/"]. *)
Theorem make_item_id_parse_item_id (item_id : string)
  (item_type : storage.ItemType) (path : string) :
  item_id <> "" ->
  _parse_item_id item_id = Ok (item_type, path) ->
  _make_item_id item_type path = item_id.
Proof.
  intros Hne. unfold _parse_item_id.
  destruct item_id as [|a s]; [congruence|]. simpl negb. cbv iota.
  destruct (Py.split_max1 ":" (String a s)) as [|token [|rest [|]]] eqn:Hs;
    try discriminate.
  destruct (storage.ItemType_of_value token) as [t|e] eqn:Ht;
    [|discriminate].
  simpl. intros [= -> ->].
  apply split_max1_pair in Hs. apply ItemType_of_value_inv in Ht.
  rewrite Hs, Ht. reflexivity.
Qed.

Lemma lstrip_idem (c : ascii) (s : string) :
  Py.lstrip c (Py.lstrip c s) = Py.lstrip c s.
Proof.
  induction s as [|a s IH]; [reflexivity|].
  simpl. destruct (Ascii.eqb a c) eqn:E; [exact IH|].
  simpl. rewrite E. reflexivity.
Qed.

Lemma lstrip_no_leading (c : ascii) (s : string) :
  Py.startswith (Py.lstrip c s) (String c "") = false.
Proof.
  induction s as [|a s IH]; [reflexivity|].
  simpl. destruct (Ascii.eqb a c) eqn:E; [exact IH|].
  simpl. rewrite E. reflexivity.
Qed.

Lemma strip_fixed (c : ascii) (s : string) :
  Py.lstrip c (Py.strip c s) = Py.strip c s
  /\ Py.rstrip c (Py.strip c s) = Py.strip c s.
Proof.
  unfold Py.strip. split; [apply lstrip_idem|].
  rewrite <- lstrip_rstrip_comm, rstrip_idem. reflexivity.
Qed.

Lemma href_to_path_shape (href p : string) :
  _href_to_path href = Ok p ->
  p = "/" \/ (p <> "" /\ Py.lstrip "/" p = p /\ Py.rstrip "/" p = p).
Proof.
  unfold _href_to_path.
  destruct (urlparse_path (unquote href)) as [hp|e]; [|discriminate].
  simpl. destruct (urlparse_path external_api_url) as [bp|e];
    [|discriminate].
  simpl. intros [= <-].
  match goal with
  | |- context [Py.strip "/" ?x] =>
      destruct (strip_fixed "/" x) as [Hl Hr]; destruct (Py.strip "/" x)
  end.
  - left. reflexivity.
  - right. repeat split; [discriminate | exact Hl | exact Hr].
Qed.

(** What [_href_to_path] returns is ["/"], or a string that is not empty
    and has no slash at its start or at its end. *)
Theorem href_to_path_normalised (href p : string) :
  _href_to_path href = Ok p ->
  p = "/" \/ (p <> "" /\ Py.lstrip "/" p = p /\ Py.rstrip "/" p = p).
Proof. apply href_to_path_shape. Qed.

(** The base path is removed as a prefix of characters: when the path of
    the href, without its leading slashes, starts with the normalised
    path of the base, what follows is the result, wherever in a segment
    the prefix ends. *)
Theorem href_to_path_strips_string_prefix (href hp bp rest : string) :
  urlparse_path (unquote href) = Ok hp ->
  urlparse_path external_api_url = Ok bp ->
  Py.lstrip "/" hp = Py.lstrip "/" (Py.rstrip "/" bp) ++ rest ->
  _href_to_path href =
  Ok (if Py.truthy (Py.strip "/" rest) then Py.strip "/" rest else "/").
Proof.
  intros Hh Hb Hrest. unfold _href_to_path.
  rewrite Hh. simpl. rewrite Hb. simpl.
  rewrite Hrest, startswith_app, slice_from_app. reflexivity.
Qed.

(** ** More about the operations *)

(** The item that [get_item_info] returns carries an identifier that
    decodes to the item's own type and to the path that was asked for. *)
Theorem get_item_info_identifier (item_id : string) (log log' : list Request)
  (item : storage.ItemResult) :
  get_item_info item_id log = (Ok item, log') ->
  exists (t : storage.ItemType) (path : string),
    _parse_item_id item_id = Ok (t, path)
    /\ _parse_item_id (storage.item_id item) =
       Ok (storage.item_type item, path).
Proof.
  unfold get_item_info. run_op.
  destruct (_parse_item_id item_id) as [[t path]|e]; [|discriminate].
  simpl. destruct (network _ _) as [response_xml|e]; [|discriminate].
  destruct (ET_fromstring response_xml) as [root|e]; [|discriminate].
  destruct (ET.find_child _ root) as [response_element|]; [|discriminate].
  intros [= <- _]. exists t, path. split; [reflexivity|].
  unfold _parse_response_element. simpl. apply parse_make_item_id.
Qed.

(** An identifier that does not decode is refused before anything is
    sent. *)
Theorem invalid_item_id_sends_nothing (item_id page_cursor : string)
  (item_type : option storage.ItemType) (log : list Request) (e : exn) :
  _parse_item_id item_id = Raise e ->
  get_item_info item_id log = (Raise e, log)
  /\ list_child_items item_id page_cursor item_type log = (Raise e, log).
Proof.
  intros H. unfold get_item_info, list_child_items. run_op.
  rewrite H. split; reflexivity.
Qed.

Lemma get_item_info_request (item_id : string) (log : list Request)
  (t : storage.ItemType) (path : string) :
  _parse_item_id item_id = Ok (t, path) ->
  snd (get_item_info item_id log) =
  (log ++ [mkRequest (Py.lstrip "/" path) (depth "0")
             _BUILD_PROPFIND_ALLPROPS])%list.
Proof.
  intros H. unfold get_item_info. run_op. rewrite H. simpl.
  destruct (network _ _) as [response_xml|e]; [|reflexivity].
  destruct (ET_fromstring response_xml) as [root|e]; [|reflexivity].
  destruct (ET.find_child _ root); reflexivity.
Qed.

Lemma item_operations_request_log (item_id page_cursor : string)
  (item_type : option storage.ItemType) (log : list Request)
  (t : storage.ItemType) (path : string) :
  _parse_item_id item_id = Ok (t, path) ->
  snd (get_item_info item_id log) =
    (log ++ [mkRequest (Py.lstrip "/" path) (depth "0")
               _BUILD_PROPFIND_ALLPROPS])%list
  /\ snd (list_child_items item_id page_cursor item_type log) =
    (log ++ [mkRequest (Py.lstrip "/" path) (depth "1")
               _BUILD_PROPFIND_ALLPROPS])%list.
Proof.
  intros H. split; [exact (get_item_info_request _ _ _ _ H)|].
  unfold list_child_items. run_op. rewrite H. simpl.
  - destruct (network _ _) as [response_xml|e]; [|reflexivity].
    destruct (ET_fromstring response_xml) as [root|e]; [|reflexivity].
    destruct (for_each _ _ _); reflexivity.
Qed.

(** With an identifier that decodes, each of the two operations sends
    one request, whatever the answer: a PROPFIND of the path without its
    leading slashes, with the allprops body, of depth 0 for the item and
    of depth 1 for its children. The requests are written out. *)
Theorem item_operations_send_one_request (item_id page_cursor : string)
  (item_type : option storage.ItemType) (log : list Request)
  (t : storage.ItemType) (path : string) :
  let q := String "034"%char "" in
  let n := String "010"%char "" in
  let allprops_body :=
    "<?xml version=" ++ q ++ "1.0" ++ q ++ " encoding=" ++ q ++ "UTF-8" ++ q
    ++ "?>" ++ n ++ "<d:propfind xmlns:d=" ++ q ++ "DAV:" ++ q ++ ">" ++ n
    ++ "    <d:allprop/>" ++ n
    ++ "</d:propfind>" in
  _parse_item_id item_id = Ok (t, path) ->
  snd (get_item_info item_id log) =
    (log ++ [mkRequest (Py.lstrip "/" path) {[ "Depth" := "0" ]}
               allprops_body])%list
  /\ snd (list_child_items item_id page_cursor item_type log) =
    (log ++ [mkRequest (Py.lstrip "/" path) {[ "Depth" := "1" ]}
               allprops_body])%list.
Proof.
  intros q n allprops_body.
  exact (item_operations_request_log item_id page_cursor item_type log t path).
Qed.

Lemma get_external_account_id_second_failure
  (auth_result_extras : gmap string string) (log : list Request)
  (second : Request) (e : exn) :
  snd (get_external_account_id auth_result_extras log) =
    (log ++ [principal_request; second])%list ->
  network (log ++ [principal_request])%list second = Raise e ->
  get_external_account_id auth_result_extras log =
  (Raise e, (log ++ [principal_request; second])%list).
Proof.
  unfold get_external_account_id. run_op. fold principal_request.
  destruct (network log principal_request) as [xml1|e1].
  - destruct (try_except_ValueError _ _) as [url|e1].
    + match goal with
      | |- context [network ?l ?r] => set (sent := r)
      end.
      intros Hlog Hnet.
      assert (Hsent : sent = second).
      { assert (H : snd (match network (log ++ [principal_request]) sent with
                        | Ok a => (_parse_displayname a,
                                   ((log ++ [principal_request]) ++ [sent])%list)
                        | Raise e0 => (Raise e0,
                                   ((log ++ [principal_request]) ++ [sent])%list)
                        end) = ((log ++ [principal_request]) ++ [sent])%list)
          by (destruct (network _ sent); reflexivity).
        rewrite H in Hlog. rewrite <- List.app_assoc in Hlog. simpl in Hlog.
        apply List.app_inv_head in Hlog. congruence. }
      rewrite Hsent, Hnet. rewrite <- List.app_assoc. reflexivity.
    + simpl. intros Hlog. exfalso.
      apply (f_equal (@List.length Request)) in Hlog.
      rewrite !List.length_app in Hlog. simpl in Hlog. lia.
  - simpl. intros Hlog. exfalso.
    apply (f_equal (@List.length Request)) in Hlog.
    rewrite !List.length_app in Hlog. simpl in Hlog. lia.
Qed.

(** What the transport raises is what the operation raises: no request
    is repeated; in [get_external_account_id] a failure of the first
    request is not taken for a missing principal, even a [ValueError],
    and a failure of the second request is not replaced by the default
    name. *)
Theorem transport_failure_propagates (item_id page_cursor : string)
  (item_type : option storage.ItemType)
  (auth_result_extras : gmap string string) (log : list Request)
  (t : storage.ItemType) (path : string) (e : exn) :
  (network log principal_request = Raise e ->
   get_external_account_id auth_result_extras log =
   (Raise e, (log ++ [principal_request])%list))
  /\ (forall second,
        snd (get_external_account_id auth_result_extras log) =
          (log ++ [principal_request; second])%list ->
        network (log ++ [principal_request])%list second = Raise e ->
        get_external_account_id auth_result_extras log =
        (Raise e, (log ++ [principal_request; second])%list))
  /\ (_parse_item_id item_id = Ok (t, path) ->
      network log (mkRequest (_strip_absolute_path path) (depth "0")
                     _BUILD_PROPFIND_ALLPROPS) = Raise e ->
      fst (get_item_info item_id log) = Raise e)
  /\ (_parse_item_id item_id = Ok (t, path) ->
      network log (mkRequest (_strip_absolute_path path) (depth "1")
                     _BUILD_PROPFIND_ALLPROPS) = Raise e ->
      fst (list_child_items item_id page_cursor item_type log) = Raise e).
Proof.
  split; [|split; [|split]].
  - intros H. unfold get_external_account_id. run_op.
    fold principal_request. rewrite H. reflexivity.
  - intros second. apply get_external_account_id_second_failure.
  - intros Hid H. unfold get_item_info. run_op.
    rewrite Hid. simpl. rewrite H. reflexivity.
  - intros Hid H. unfold list_child_items. run_op.
    rewrite Hid. simpl. rewrite H. reflexivity.
Qed.

(** A first answer on which the XML parser raises something else than a
    [ValueError] ends [get_external_account_id] with that exception: the
    user name is a fallback for a missing principal only, and no second
    request is sent. *)
Theorem get_external_account_id_unparsable_answer
  (auth_result_extras : gmap string string) (log : list Request)
  (response_xml : string) (e : exn) :
  network log principal_request = Ok response_xml ->
  ET_fromstring response_xml = Raise e ->
  (forall msg, e <> ValueError msg) ->
  get_external_account_id auth_result_extras log =
  (Raise e, (log ++ [principal_request])%list).
Proof.
  intros Hnet Hxml Hne. unfold get_external_account_id. run_op.
  fold principal_request. rewrite Hnet.
  unfold _parse_current_user_principal, _parse_property.
  rewrite Hxml. simpl.
  destruct e as [msg| |msg]; [destruct (Hne msg eq_refl)| |]; reflexivity.
Qed.

Lemma get_external_account_id_principal_log
  (auth_result_extras : gmap string string) (log : list Request)
  (response_xml href : string) (root : ET.Element) :
  network log principal_request = Ok response_xml ->
  ET_fromstring response_xml = Ok root ->
  text_of_found
    (ET.find_descendant_child (ET.dav "current-user-principal")
       (ET.dav "href") root) = Some href ->
  let second :=
    mkRequest (Py.lstrip "/" href) (depth "0") _BUILD_PROPFIND_DISPLAYNAME in
  get_external_account_id auth_result_extras log =
  (xml ← network (log ++ [principal_request])%list second;
   _parse_displayname xml,
   (log ++ [principal_request; second])%list).
Proof.
  intros Hnet Hxml Hfound second. unfold get_external_account_id. run_op.
  fold principal_request. rewrite Hnet.
  unfold _parse_current_user_principal, _parse_property.
  rewrite Hxml. simpl. rewrite Hfound. simpl.
  unfold _strip_absolute_path. rewrite lstrip_idem. fold second.
  rewrite <- List.app_assoc. simpl.
  destruct (network _ second); reflexivity.
Qed.

(** When the first answer names the principal, the second PROPFIND, of
    depth 0 and with the displayname body, goes to the principal's href
    without its leading slashes, and neither the extra authentication
    results nor the fallback user name matter: the result is the display
    name read from the second answer. The two requests are written
    out. *)
Theorem get_external_account_id_principal_found
  (auth_result_extras : gmap string string) (log : list Request)
  (response_xml href : string) (root : ET.Element) :
  let q := String "034"%char "" in
  let n := String "010"%char "" in
  let principal_body :=
    "<?xml version=" ++ q ++ "1.0" ++ q ++ " encoding=" ++ q ++ "UTF-8" ++ q
    ++ "?>" ++ n ++ "<d:propfind xmlns:d=" ++ q ++ "DAV:" ++ q ++ ">" ++ n
    ++ "    <d:prop>" ++ n
    ++ "        <d:current-user-principal/>" ++ n
    ++ "    </d:prop>" ++ n
    ++ "</d:propfind>" in
  let displayname_body :=
    "<?xml version=" ++ q ++ "1.0" ++ q ++ " encoding=" ++ q ++ "UTF-8" ++ q
    ++ "?>" ++ n ++ "<d:propfind xmlns:d=" ++ q ++ "DAV:" ++ q ++ ">" ++ n
    ++ "    <d:prop>" ++ n
    ++ "        <d:displayname/>" ++ n
    ++ "    </d:prop>" ++ n
    ++ "</d:propfind>" in
  let first := mkRequest "" {[ "Depth" := "0" ]} principal_body in
  let second :=
    mkRequest (Py.lstrip "/" href) {[ "Depth" := "0" ]} displayname_body in
  network log first = Ok response_xml ->
  ET_fromstring response_xml = Ok root ->
  text_of_found
    (ET.find_descendant_child (ET.dav "current-user-principal")
       (ET.dav "href") root) = Some href ->
  get_external_account_id auth_result_extras log =
  (xml ← network (log ++ [first])%list second;
   _parse_displayname xml,
   (log ++ [first; second])%list).
Proof.
  intros q n principal_body displayname_body first second.
  exact (get_external_account_id_principal_log
           auth_result_extras log response_xml href root).
Qed.

(** Without a principal, a user name in the extra authentication
    results goes into the path of the second PROPFIND as it is, whatever
    characters it has, and before any fallback user name. *)
Theorem get_external_account_id_username_path
  (auth_result_extras : gmap string string) (log : list Request)
  (response_xml username : string) (root : ET.Element) :
  network log principal_request = Ok response_xml ->
  ET_fromstring response_xml = Ok root ->
  text_of_found
    (ET.find_descendant_child (ET.dav "current-user-principal")
       (ET.dav "href") root) = None ->
  auth_result_extras !! "username" = Some username ->
  username <> "" ->
  snd (get_external_account_id auth_result_extras log) =
  (log ++ [principal_request;
           mkRequest ("remote.php/dav/files/" ++ username ++ "/")
             (depth "0") _BUILD_PROPFIND_DISPLAYNAME])%list.
Proof.
  intros Hnet Hxml Hnone Hextras Hne.
  unfold get_external_account_id. run_op.
  fold principal_request. rewrite Hnet.
  unfold _parse_current_user_principal, _parse_property.
  rewrite Hxml. simpl. rewrite Hnone. simpl.
  rewrite Hextras. unfold Py.or_. simpl.
  destruct username as [|a u]; [congruence|]. simpl.
  rewrite <- List.app_assoc. simpl.
  match goal with
  | |- context [network ?l ?r] => destruct (network l r)
  end; reflexivity.
Qed.

Lemma parse_property_text (response_xml : string)
  (xpath : ET.Element -> option ET.Element) (error_message s : string) :
  _parse_property response_xml xpath error_message = Ok s -> s <> "".
Proof.
  unfold _parse_property.
  destruct (ET_fromstring response_xml) as [root|e]; [|discriminate].
  simpl. unfold text_of_found.
  destruct (xpath root) as [element|]; [|discriminate].
  destruct (ET.text element) as [t|]; [|discriminate].
  destruct t; [discriminate|]. simpl. intros [= <-]. discriminate.
Qed.

Lemma parse_displayname_cases (response_xml : string) :
  (forall msg, _parse_displayname response_xml <> Raise (ValueError msg))
  /\ (forall s, _parse_displayname response_xml = Ok s -> s <> "").
Proof.
  unfold _parse_displayname.
  destruct (_parse_property response_xml _ _) as [s|[msg| |msg]] eqn:H;
    simpl; split; try discriminate.
  - intros s' [= <-]. exact (parse_property_text _ _ _ _ H).
  - intros s' [= <-]. discriminate.
Qed.

(** [_parse_displayname] never raises a [ValueError] and never returns
    the empty string: without a display name with text in a document
    that parses, it returns ["default-name"]. *)
Theorem parse_displayname_never_empty (response_xml : string) :
  (forall msg, _parse_displayname response_xml <> Raise (ValueError msg))
  /\ (forall s, _parse_displayname response_xml = Ok s -> s <> "")
  /\ (forall root,
        ET_fromstring response_xml = Ok root ->
        text_of_found (ET.find_descendant (ET.dav "displayname") root) = None ->
        _parse_displayname response_xml = Ok "default-name").
Proof.
  destruct (parse_displayname_cases response_xml) as [H1 H2].
  split; [exact H1|]. split; [exact H2|].
  intros root Hxml Hnone. unfold _parse_displayname, _parse_property.
  rewrite Hxml. simpl. rewrite Hnone. reflexivity.
Qed.

Lemma get_external_account_id_result_log
  (auth_result_extras : gmap string string) (log log' : list Request)
  (name : string) :
  get_external_account_id auth_result_extras log = (Ok name, log') ->
  name <> ""
  /\ exists second,
       log' = (log ++ [principal_request; second])%list
       /\ headers second = depth "0"
       /\ content second = _BUILD_PROPFIND_DISPLAYNAME
       /\ Py.startswith (uri_path second) "/" = false.
Proof.
  unfold get_external_account_id. run_op. fold principal_request.
  destruct (network log principal_request) as [xml1|e]; [|discriminate].
  destruct (try_except_ValueError _ _) as [url|e]; [|discriminate].
  match goal with
  | |- context [network ?l ?r] =>
      set (second := r); destruct (network l second) as [xml2|e] eqn:Hnet
  end; [|discriminate].
  intros H. injection H as Hname <-.
  split; [exact (proj2 (parse_displayname_cases xml2) _ Hname)|].
  exists second. rewrite <- List.app_assoc. split; [reflexivity|].
  repeat split. unfold second, _strip_absolute_path. simpl.
  apply lstrip_no_leading.
Qed.

(** The account identifier that [get_external_account_id] returns is not
    empty, and it took two requests of depth 0: the one for the
    principal, to the empty path, and one with the displayname body to a
    path that does not start with a slash. The requests are written
    out. *)
Theorem get_external_account_id_result
  (auth_result_extras : gmap string string) (log log' : list Request)
  (name : string) :
  let q := String "034"%char "" in
  let n := String "010"%char "" in
  let principal_body :=
    "<?xml version=" ++ q ++ "1.0" ++ q ++ " encoding=" ++ q ++ "UTF-8" ++ q
    ++ "?>" ++ n ++ "<d:propfind xmlns:d=" ++ q ++ "DAV:" ++ q ++ ">" ++ n
    ++ "    <d:prop>" ++ n
    ++ "        <d:current-user-principal/>" ++ n
    ++ "    </d:prop>" ++ n
    ++ "</d:propfind>" in
  let displayname_body :=
    "<?xml version=" ++ q ++ "1.0" ++ q ++ " encoding=" ++ q ++ "UTF-8" ++ q
    ++ "?>" ++ n ++ "<d:propfind xmlns:d=" ++ q ++ "DAV:" ++ q ++ ">" ++ n
    ++ "    <d:prop>" ++ n
    ++ "        <d:displayname/>" ++ n
    ++ "    </d:prop>" ++ n
    ++ "</d:propfind>" in
  get_external_account_id auth_result_extras log = (Ok name, log') ->
  name <> ""
  /\ exists path,
       log' = (log ++ [mkRequest "" {[ "Depth" := "0" ]} principal_body;
                       mkRequest path {[ "Depth" := "0" ]}
                         displayname_body])%list
       /\ Py.startswith path "/" = false.
Proof.
  intros q n principal_body displayname_body Hrun.
  destruct (get_external_account_id_result_log _ _ _ _ Hrun)
    as (Hname & [path h c] & Hlog & Hh & Hc & Hp).
  simpl in Hh, Hc, Hp. subst h c.
  split; [exact Hname|]. exists path. split; [exact Hlog | exact Hp].
Qed.

(** ** More about the listings *)

Lemma for_each_invariant_in {A S : Type} (P : S -> Prop)
  (body : A -> S -> result S) (l : list A) :
  (forall x s s', List.In x l -> body x s = Ok s' -> P s -> P s') ->
  forall s s', P s -> for_each l body s = Ok s' -> P s'.
Proof.
  induction l as [|x l IH]; intros Hbody s s' Hs Hrun; simpl in Hrun.
  - congruence.
  - destruct (body x s) as [s1|e] eqn:Hx; [|discriminate].
    apply IH with (s := s1); [|exact (Hbody x s s1 (or_introl eq_refl) Hx Hs)
                              |exact Hrun].
    intros y t t' Hy. apply Hbody. right. exact Hy.
Qed.

Lemma list_child_items_run (item_id page_cursor : string)
  (item_type : option storage.ItemType) (log log' : list Request)
  (page : storage.ItemSampleResult) :
  list_child_items item_id page_cursor item_type log = (Ok page, log') ->
  exists t path response_xml root,
    _parse_item_id item_id = Ok (t, path)
    /\ ET_fromstring response_xml = Ok root
    /\ for_each (ET.findall_child (ET.dav "response") root)
         (list_child_items_body path item_type) [] = Ok (storage.items page).
Proof.
  unfold list_child_items. run_op. intros Hrun.
  destruct (_parse_item_id item_id) as [[t path]|e]; [|discriminate].
  simpl in Hrun.
  destruct (network _ _) as [response_xml|e]; [|discriminate].
  destruct (ET_fromstring response_xml) as [root|e] eqn:Hxml; [|discriminate].
  destruct (for_each _ _ _) as [items|e] eqn:Hloop; [|discriminate].
  injection Hrun as <- _. exists t, path, response_xml, root. auto.
Qed.

Lemma list_child_items_entries
  (item_id page_cursor : string) (item_type : option storage.ItemType)
  (log log' : list Request) (page : storage.ItemSampleResult) :
  list_child_items item_id page_cursor item_type log = (Ok page, log') ->
  exists response_xml root,
    ET_fromstring response_xml = Ok root
    /\ Forall (fun item =>
                 exists response_element href item_path,
                   List.In response_element
                     (ET.findall_child (ET.dav "response") root)
                   /\ text_of_found
                        (ET.find_child (ET.dav "href") response_element)
                      = Some href
                   /\ _href_to_path href = Ok item_path
                   /\ item =
                      _parse_response_element response_element item_path)
         (storage.items page).
Proof.
  intros Hrun.
  destruct (list_child_items_run _ _ _ _ _ _ Hrun)
    as (t & path & response_xml & root & _ & Hxml & Hloop).
  exists response_xml, root. split; [exact Hxml|].
  revert Hloop. apply for_each_invariant_in; [|constructor].
  intros x s s' Hin Hbody Hs. unfold list_child_items_body in Hbody.
  destruct (text_of_found _) as [href|] eqn:Hhref; [|congruence].
  destruct (_href_to_path href) as [item_path|e] eqn:Hpath; [|discriminate].
  simpl in Hbody.
  assert (Hnew : Forall
            (fun item =>
               exists response_element href item_path,
                 List.In response_element
                   (ET.findall_child (ET.dav "response") root)
                 /\ text_of_found
                      (ET.find_child (ET.dav "href") response_element)
                    = Some href
                 /\ _href_to_path href = Ok item_path
                 /\ item = _parse_response_element response_element item_path)
            (s ++ [_parse_response_element x item_path])).
  { apply Forall_app. split; [exact Hs|].
    constructor; [|constructor]. exists x, href, item_path. auto. }
  destruct (String.eqb _ _); [congruence|].
  destruct item_type as [ty|]; [destruct (negb _)|]; congruence.
Qed.

Lemma list_child_items_answer (item_id page_cursor : string)
  (item_type : option storage.ItemType) (log log' : list Request)
  (page : storage.ItemSampleResult) :
  list_child_items item_id page_cursor item_type log = (Ok page, log') ->
  exists t path response_xml root,
    _parse_item_id item_id = Ok (t, path)
    /\ network log (mkRequest (Py.lstrip "/" path) (depth "1")
                      _BUILD_PROPFIND_ALLPROPS) = Ok response_xml
    /\ ET_fromstring response_xml = Ok root
    /\ for_each (ET.findall_child (ET.dav "response") root)
         (list_child_items_body path item_type) [] = Ok (storage.items page).
Proof.
  unfold list_child_items. run_op. intros Hrun.
  destruct (_parse_item_id item_id) as [[t path]|e]; [|discriminate].
  simpl in Hrun.
  destruct (network _ _) as [response_xml|e] eqn:Hnet; [|discriminate].
  destruct (ET_fromstring response_xml) as [root|e] eqn:Hxml; [|discriminate].
  destruct (for_each _ _ _) as [items|e] eqn:Hloop; [|discriminate].
  injection Hrun as <- _. exists t, path, response_xml, root. auto.
Qed.

Lemma for_each_entries (path : string) (item_type : option storage.ItemType)
  (responses : list ET.Element) (items : list storage.ItemResult) :
  for_each responses (list_child_items_body path item_type) [] = Ok items ->
  Forall (fun item =>
            exists response_element href item_path,
              List.In response_element responses
              /\ text_of_found
                   (ET.find_child (ET.dav "href") response_element)
                 = Some href
              /\ _href_to_path href = Ok item_path
              /\ item = _parse_response_element response_element item_path)
    items.
Proof.
  apply for_each_invariant_in; [|constructor].
  intros x s s' Hin Hbody Hs. unfold list_child_items_body in Hbody.
  destruct (text_of_found _) as [href|] eqn:Hhref; [|congruence].
  destruct (_href_to_path href) as [item_path|e] eqn:Hpath; [|discriminate].
  simpl in Hbody.
  assert (Hnew : Forall
            (fun item =>
               exists response_element href item_path,
                 List.In response_element responses
                 /\ text_of_found
                      (ET.find_child (ET.dav "href") response_element)
                    = Some href
                 /\ _href_to_path href = Ok item_path
                 /\ item = _parse_response_element response_element item_path)
            (s ++ [_parse_response_element x item_path])).
  { apply Forall_app. split; [exact Hs|].
    constructor; [|constructor]. exists x, href, item_path. auto. }
  destruct (String.eqb _ _); [congruence|].
  destruct item_type as [ty|]; [destruct (negb _)|]; congruence.
Qed.

(** Every entry of a listing is made from a [d:response] element of the
    answer that has an href with text: the answer of the transport to
    the PROPFIND of the listing is parsed, and the entry is a
    [d:response] child of its root, parsed at the path of its href. The
    request is written out. *)
Theorem list_child_items_entries_from_responses
  (item_id page_cursor : string) (item_type : option storage.ItemType)
  (log log' : list Request) (page : storage.ItemSampleResult) :
  let q := String "034"%char "" in
  let n := String "010"%char "" in
  let allprops_body :=
    "<?xml version=" ++ q ++ "1.0" ++ q ++ " encoding=" ++ q ++ "UTF-8" ++ q
    ++ "?>" ++ n ++ "<d:propfind xmlns:d=" ++ q ++ "DAV:" ++ q ++ ">" ++ n
    ++ "    <d:allprop/>" ++ n
    ++ "</d:propfind>" in
  list_child_items item_id page_cursor item_type log = (Ok page, log') ->
  exists t path response_xml root,
    _parse_item_id item_id = Ok (t, path)
    /\ network log (mkRequest (Py.lstrip "/" path) {[ "Depth" := "1" ]}
                      allprops_body) = Ok response_xml
    /\ ET_fromstring response_xml = Ok root
    /\ Forall (fun item =>
                 exists response_element href item_path,
                   List.In response_element
                     (ET.findall_child (ET.dav "response") root)
                   /\ text_of_found
                        (ET.find_child (ET.dav "href") response_element)
                      = Some href
                   /\ _href_to_path href = Ok item_path
                   /\ item =
                      _parse_response_element response_element item_path)
         (storage.items page).
Proof.
  intros q n allprops_body Hrun.
  destruct (list_child_items_answer _ _ _ _ _ _ Hrun)
    as (t & path & response_xml & root & Hid & Hnet & Hxml & Hloop).
  exists t, path, response_xml, root.
  repeat split; [exact Hid | exact Hnet | exact Hxml|].
  exact (for_each_entries _ _ _ _ Hloop).
Qed.

(** The entries of a listing can be looked up: for each of them
    [get_item_info] sends its PROPFIND to the path of the entry as it
    is, there being no leading slash to strip, and to the empty path for
    the entry ["/"]. *)
Theorem list_child_items_entries_lookup
  (item_id page_cursor : string) (item_type : option storage.ItemType)
  (log log' : list Request) (page : storage.ItemSampleResult) :
  list_child_items item_id page_cursor item_type log = (Ok page, log') ->
  Forall (fun item =>
            exists p,
              entry_path item = Ok p
              /\ forall log2,
                   snd (get_item_info (storage.item_id item) log2) =
                   (log2 ++ [mkRequest (if String.eqb p "/" then "" else p)
                               (depth "0") _BUILD_PROPFIND_ALLPROPS])%list)
    (storage.items page).
Proof.
  intros Hrun.
  destruct (list_child_items_entries _ _ _ _ _ _ Hrun)
    as (response_xml & root & _ & Hall).
  eapply Forall_impl; [exact Hall|].
  intros item (e & href & p & _ & _ & Hp & ->).
  exists p. split; [apply entry_path_parse_response_element|].
  intros log2.
  rewrite (get_item_info_request _ log2
             (storage.item_type (_parse_response_element e p)) p)
    by apply parse_make_item_id.
  destruct (href_to_path_shape _ _ Hp) as [-> | (Hne & Hl & _)];
    [reflexivity|].
  rewrite Hl. destruct (String.eqb_spec p "/") as [->|_];
    [discriminate Hl | reflexivity].
Qed.

Lemma for_each_cons {A S : Type} (x : A) (l : list A)
  (body : A -> S -> result S) (s : S) :
  for_each (x :: l) body s = (s' ← body x s; for_each l body s').
Proof. reflexivity. Qed.

Lemma for_each_app {A S : Type} (l1 l2 : list A)
  (body : A -> S -> result S) (s : S) :
  for_each (l1 ++ l2) body s =
  (s' ← for_each l1 body s; for_each l2 body s').
Proof.
  revert s. induction l1 as [|x l1 IH]; intros s; [reflexivity|].
  simpl. destruct (body x s) as [s1|e]; [apply IH | reflexivity].
Qed.

Lemma list_child_items_body_raises (path : string)
  (item_type : option storage.ItemType) (response_element : ET.Element)
  (items : list storage.ItemResult) (href : string) (e : exn) :
  text_of_found (ET.find_child (ET.dav "href") response_element) = Some href ->
  urlparse_path (unquote href) = Raise e ->
  list_child_items_body path item_type response_element items = Raise e.
Proof.
  intros Hhref Hparse. unfold list_child_items_body, _href_to_path.
  rewrite Hhref, Hparse. reflexivity.
Qed.

(** An href on which [urlparse] raises ends the listing with that
    exception, unlike an href that is missing: the elements before it
    and after it are lost with it. *)
Theorem list_child_items_unparsable_href
  (item_id page_cursor : string) (item_type : option storage.ItemType)
  (log : list Request) (t : storage.ItemType) (path response_xml : string)
  (root bad : ET.Element) (before after : list ET.Element)
  (items : list storage.ItemResult) (href : string) (e : exn) :
  _parse_item_id item_id = Ok (t, path) ->
  network log (mkRequest (_strip_absolute_path path) (depth "1")
                 _BUILD_PROPFIND_ALLPROPS) = Ok response_xml ->
  ET_fromstring response_xml = Ok root ->
  ET.findall_child (ET.dav "response") root = (before ++ bad :: after)%list ->
  for_each before (list_child_items_body path item_type) [] = Ok items ->
  text_of_found (ET.find_child (ET.dav "href") bad) = Some href ->
  urlparse_path (unquote href) = Raise e ->
  fst (list_child_items item_id page_cursor item_type log) = Raise e.
Proof.
  intros Hid Hnet Hxml Hresp Hbefore Hhref Hparse.
  unfold list_child_items. run_op. rewrite Hid. simpl.
  rewrite Hnet, Hxml, Hresp, for_each_app, Hbefore.
  change (Ok items ≫=
            (fun s' => for_each (bad :: after)
                         (list_child_items_body path item_type) s'))
    with (list_child_items_body path item_type bad items ≫=
            (fun s' => for_each after
                         (list_child_items_body path item_type) s')).
  rewrite (list_child_items_body_raises _ _ _ _ _ _ Hhref Hparse).
  reflexivity.
Qed.

Lemma ItemType_eqb_eq (a b : storage.ItemType) :
  storage.ItemType_eqb a b = true <-> a = b.
Proof. destruct a, b; simpl; split; congruence. Qed.

(** With a type filter, every entry of the listing has that type. *)
Theorem list_child_items_filtered_type
  (item_id page_cursor : string) (wanted : storage.ItemType)
  (log log' : list Request) (page : storage.ItemSampleResult) :
  list_child_items item_id page_cursor (Some wanted) log = (Ok page, log') ->
  Forall (fun item => storage.item_type item = wanted) (storage.items page).
Proof.
  intros Hrun.
  destruct (list_child_items_run _ _ _ _ _ _ Hrun)
    as (t & path & response_xml & root & _ & _ & Hloop).
  revert Hloop. apply for_each_invariant; [|constructor].
  intros x s s' Hbody Hs. unfold list_child_items_body in Hbody.
  destruct (text_of_found _) as [href|]; [|congruence].
  destruct (_href_to_path href) as [item_path|e]; [|discriminate].
  simpl in Hbody. destruct (String.eqb _ _); [congruence|].
  destruct (storage.ItemType_eqb _ wanted) eqn:Heq; simpl in Hbody;
    [|congruence].
  injection Hbody as <-. apply Forall_app. split; [exact Hs|].
  constructor; [|constructor]. apply ItemType_eqb_eq. exact Heq.
Qed.

Lemma list_child_items_body_filter (path : string) (wanted : storage.ItemType)
  (response_element : ET.Element) (items : list storage.ItemResult) :
  let keep item := storage.ItemType_eqb (storage.item_type item) wanted in
  list_child_items_body path (Some wanted) response_element
    (List.filter keep items) =
  (all ← list_child_items_body path None response_element items;
   Ok (List.filter keep all)).
Proof.
  intros keep. unfold list_child_items_body.
  destruct (text_of_found _) as [href|]; [|reflexivity].
  destruct (_href_to_path href) as [item_path|e]; [|reflexivity].
  unfold mbind, result_bind, rbind.
  destruct (String.eqb _ _); [reflexivity|].
  set (item := _parse_response_element response_element item_path).
  rewrite List.filter_app.
  change (List.filter keep [item]) with (if keep item then [item] else []).
  change (keep item)
    with (storage.ItemType_eqb (storage.item_type item) wanted).
  destruct (storage.ItemType_eqb (storage.item_type item) wanted); simpl;
    [reflexivity | rewrite app_nil_r; reflexivity].
Qed.

Lemma for_each_body_filter (path : string) (wanted : storage.ItemType)
  (l : list ET.Element) :
  let keep item := storage.ItemType_eqb (storage.item_type item) wanted in
  forall items,
    for_each l (list_child_items_body path (Some wanted))
      (List.filter keep items) =
    (all ← for_each l (list_child_items_body path None) items;
     Ok (List.filter keep all)).
Proof.
  intros keep. subst keep.
  induction l as [|x l IH]; intros items; [reflexivity|].
  rewrite !for_each_cons.
  rewrite (list_child_items_body_filter path wanted x items).
  destruct (list_child_items_body path None x items) as [all|e];
    [|reflexivity].
  apply IH.
Qed.

(** The listing with a type filter is the listing without it, restricted
    to the entries of that type, and fails when that one fails. *)
Theorem list_child_items_filter_commutes
  (item_id page_cursor : string) (wanted : storage.ItemType)
  (log : list Request) :
  list_child_items item_id page_cursor (Some wanted) log =
  (page ← fst (list_child_items item_id page_cursor None log);
   Ok (storage.mkItemSampleResult
         (List.filter
            (fun item =>
               storage.ItemType_eqb (storage.item_type item) wanted)
            (storage.items page))),
   snd (list_child_items item_id page_cursor None log)).
Proof.
  unfold list_child_items. run_op.
  destruct (_parse_item_id item_id) as [[t path]|e]; [|reflexivity].
  simpl. destruct (network _ _) as [response_xml|e]; [|reflexivity].
  destruct (ET_fromstring response_xml) as [root|e]; [|reflexivity].
  pose proof (for_each_body_filter path wanted
                (ET.findall_child (ET.dav "response") root) []) as H.
  simpl in H. rewrite H.
  destruct (for_each _ (list_child_items_body path None) []);
    reflexivity.
Qed.

(** The listing of the root is the listing of the empty identifier: one
    PROPFIND of depth 1 of the empty path, with the allprops body. The
    request is written out. *)
Theorem list_root_items_request (page_cursor : string) (log : list Request) :
  let q := String "034"%char "" in
  let n := String "010"%char "" in
  let allprops_body :=
    "<?xml version=" ++ q ++ "1.0" ++ q ++ " encoding=" ++ q ++ "UTF-8" ++ q
    ++ "?>" ++ n ++ "<d:propfind xmlns:d=" ++ q ++ "DAV:" ++ q ++ ">" ++ n
    ++ "    <d:allprop/>" ++ n
    ++ "</d:propfind>" in
  list_root_items page_cursor log = list_child_items "" page_cursor None log
  /\ snd (list_root_items page_cursor log) =
     (log ++ [mkRequest "" {[ "Depth" := "1" ]} allprops_body])%list.
Proof.
  intros q n allprops_body.
  split; [reflexivity|].
  unfold list_root_items, list_child_items. run_op.
  destruct (network _ _) as [response_xml|e]; [|reflexivity].
  destruct (ET_fromstring response_xml) as [root|e]; [|reflexivity].
  destruct (for_each _ _ _); reflexivity.
Qed.

(** In a listing of the root (a queried path of slashes only), a response
    element is left out when the URL path of its href after
    percent-decoding is the URL path of the base URL as it is configured,
    which is not decoded. *)
Theorem list_child_items_body_skips_base (path href p : string)
  (item_type : option storage.ItemType) (response_element : ET.Element)
  (items : list storage.ItemResult) :
  Py.rstrip "/" path = "" ->
  text_of_found (ET.find_child (ET.dav "href") response_element) = Some href ->
  urlparse_path (unquote href) = Ok p ->
  urlparse_path external_api_url = Ok p ->
  list_child_items_body path item_type response_element items = Ok items.
Proof.
  intros Hroot Hhref Hp Hb. unfold list_child_items_body.
  rewrite Hhref, (href_to_path_of_base _ _ Hp Hb), Hroot. reflexivity.
Qed.

Lemma rstrip_app_all_sep (c : ascii) (s t : string) :
  Py.lstrip c t = "" -> Py.rstrip c (s ++ t) = Py.rstrip c s.
Proof.
  intros Ht. induction s as [|a s IH].
  - exact (all_sep_rstrip _ _ Ht).
  - change (String a s ++ t) with (String a (s ++ t)).
    simpl. rewrite IH. reflexivity.
Qed.

End OwnCloudStorageImp.

(** ** The adapter at work *)

Lemma parse_response_element_name_is_last_segment_witness :
  storage.item_name
    (_parse_response_element Fixture.without_href "docs/reports/2024/") =
  "2024"
  /\ storage.item_name (_parse_response_element Fixture.without_href "//") =
     "".
Proof.
  split.
  - exact (proj1 (parse_response_element_name_is_last_segment
                    Fixture.without_href "docs/reports/2024/"
                    (or_introl eq_refl)) "2024" eq_refl).
  - exact (proj2 (parse_response_element_name_is_last_segment
                    Fixture.without_href "//" (or_introl eq_refl)) eq_refl).
Defined.

(** At the root ["/"] a response element without display name gets the
    empty string as its name, which is not a segment of the path: the
    path has no segment that is not empty. *)
Lemma parse_response_element_name_root_counterexample :
  ET.find_descendant (ET.dav "displayname") Fixture.without_href = None
  /\ Spec.nonempty_segments "/" = []
  /\ storage.item_name (_parse_response_element Fixture.without_href "/") =
     ""
  /\ Spec.last_nonempty_segment "/" <>
     Some (storage.item_name
             (_parse_response_element Fixture.without_href "/")).
Proof.
  repeat split; discriminate.
Qed.



Lemma parse_item_id_cases_witness :
  _parse_item_id "folder:a:b" = Ok (storage.FOLDER, "a:b")
  /\ (exists msg, _parse_item_id "bogus" = Raise (ValueError msg))
  /\ (exists msg, _parse_item_id "bogus:docs" = Raise (ValueError msg)).
Proof.
  destruct parse_item_id_cases as (_ & Hsplit & _ & Hcolon & Htoken & _).
  split; [exact (Hsplit "folder" "a:b" eq_refl)|].
  split.
  - apply (Hcolon "bogus"); [discriminate | reflexivity].
  - apply (Htoken "bogus" "docs"); [reflexivity|].
    intros []; discriminate.
Defined.

Lemma list_child_items_excludes_self_witness :
  exists (t : storage.ItemType) (path : string),
    _parse_item_id "folder:docs" = Ok (t, path)
    /\ Forall (fun item =>
                 exists p, entry_path item = Ok p
                   /\ Py.rstrip "/" p <> Py.rstrip "/" path
                   /\ Py.rstrip "/" p <> path)
         [storage.mkItemResult "file:docs/my notes.txt" "my notes.txt"
            storage.FILE].
Proof.
  apply (list_child_items_excludes_self
           (Fixture.parse_as Fixture.listing)
           Fixture.unquote Fixture.urlparse_path
           (Fixture.always_answer "multistatus") Fixture.base
           "folder:docs" "" None []
           [mkRequest "docs" (depth "1") _BUILD_PROPFIND_ALLPROPS]
           (storage.mkItemSampleResult
              [storage.mkItemResult "file:docs/my notes.txt" "my notes.txt"
                 storage.FILE])).
  reflexivity.
Defined.

(** C6: the queried folder is listed among its own children when the
    path of the identifier starts with a slash. For [folder:/docs/] the
    request goes to [docs/]; the answer's own entry for the folder has
    the href [/remote.php/dav/files/u/docs/], whose path is [docs]; the
    loop compares [docs] with [/docs], finds them different and keeps the
    entry. With [folder:docs/] the same answer gives the file only. *)
Theorem list_child_items_lists_queried_folder :
  let q := String "034"%char "" in
  let n := String "010"%char "" in
  let allprops_body :=
    "<?xml version=" ++ q ++ "1.0" ++ q ++ " encoding=" ++ q ++ "UTF-8" ++ q
    ++ "?>" ++ n ++ "<d:propfind xmlns:d=" ++ q ++ "DAV:" ++ q ++ ">" ++ n
    ++ "    <d:allprop/>" ++ n
    ++ "</d:propfind>" in
  list_child_items (Fixture.parse_as Fixture.listing)
    Fixture.unquote Fixture.urlparse_path
    (Fixture.always_answer "multistatus") Fixture.base
    "folder:/docs/" "" None [] =
  (Ok (storage.mkItemSampleResult
         [storage.mkItemResult "folder:docs" "docs" storage.FOLDER;
          storage.mkItemResult "file:docs/my notes.txt" "my notes.txt"
            storage.FILE]),
   [mkRequest "docs/" {[ "Depth" := "1" ]} allprops_body])
  /\ list_child_items (Fixture.parse_as Fixture.listing)
       Fixture.unquote Fixture.urlparse_path
       (Fixture.always_answer "multistatus") Fixture.base
       "folder:docs/" "" None [] =
     (Ok (storage.mkItemSampleResult
            [storage.mkItemResult "file:docs/my notes.txt" "my notes.txt"
               storage.FILE]),
      [mkRequest "docs/" {[ "Depth" := "1" ]} allprops_body])
  /\ _href_to_path Fixture.unquote Fixture.urlparse_path Fixture.base
       "/remote.php/dav/files/u/docs/" = Ok "docs".
Proof.
  intros q n allprops_body. repeat split.
Qed.

Lemma get_item_info_no_response_element_witness :
  fst (get_item_info (Fixture.parse_as Fixture.empty_multistatus)
         (Fixture.always_answer "multistatus") "file:docs/gone.txt" []) =
  Raise (ValueError "No response element found in PROPFIND response").
Proof.
  apply (get_item_info_no_response_element
           (Fixture.parse_as Fixture.empty_multistatus)
           (Fixture.always_answer "multistatus") "file:docs/gone.txt" []
           storage.FILE "docs/gone.txt" "multistatus"
           Fixture.empty_multistatus);
    reflexivity.
Defined.

Lemma get_external_account_id_missing_username_witness :
  get_external_account_id (Fixture.parse_as Fixture.empty_multistatus)
    (Fixture.always_answer "multistatus") None ∅ [] =
  (Raise (ValueError "Username is required for fallback but not provided."),
   [principal_request]).
Proof.
  apply (get_external_account_id_missing_username
           (Fixture.parse_as Fixture.empty_multistatus)
           (Fixture.always_answer "multistatus") None ∅ []
           "multistatus" Fixture.empty_multistatus);
    reflexivity.
Defined.

Lemma get_external_account_id_fallback_request_witness :
  let q := String "034"%char "" in
  let n := String "010"%char "" in
  let principal_body :=
    "<?xml version=" ++ q ++ "1.0" ++ q ++ " encoding=" ++ q ++ "UTF-8" ++ q
    ++ "?>" ++ n ++ "<d:propfind xmlns:d=" ++ q ++ "DAV:" ++ q ++ ">" ++ n
    ++ "    <d:prop>" ++ n
    ++ "        <d:current-user-principal/>" ++ n
    ++ "    </d:prop>" ++ n
    ++ "</d:propfind>" in
  let displayname_body :=
    "<?xml version=" ++ q ++ "1.0" ++ q ++ " encoding=" ++ q ++ "UTF-8" ++ q
    ++ "?>" ++ n ++ "<d:propfind xmlns:d=" ++ q ++ "DAV:" ++ q ++ ">" ++ n
    ++ "    <d:prop>" ++ n
    ++ "        <d:displayname/>" ++ n
    ++ "    </d:prop>" ++ n
    ++ "</d:propfind>" in
  snd (get_external_account_id (Fixture.parse_as Fixture.empty_multistatus)
         (Fixture.always_answer "multistatus")
         OwnCloudStorageImp_fallback_username
         {[ "username" := "alice" ]} []) =
  [mkRequest "" {[ "Depth" := "0" ]} principal_body;
   mkRequest "remote.php/dav/files/alice/" {[ "Depth" := "0" ]}
     displayname_body].
Proof.
  intros q n principal_body displayname_body.
  apply (get_external_account_id_fallback_request
           (Fixture.parse_as Fixture.empty_multistatus)
           (Fixture.always_answer "multistatus")
           OwnCloudStorageImp_fallback_username
           {[ "username" := "alice" ]} []
           "multistatus" Fixture.empty_multistatus);
    reflexivity.
Defined.

Lemma list_child_items_skips_missing_href_witness :
  list_child_items_body Fixture.unquote Fixture.urlparse_path Fixture.base
    "docs" None Fixture.without_href [] = Ok []
  /\ fst (list_child_items (Fixture.parse_as Fixture.listing)
            Fixture.unquote Fixture.urlparse_path
            (Fixture.always_answer "multistatus") Fixture.base
            "folder:docs" "" None []) =
     Ok (storage.mkItemSampleResult
           [storage.mkItemResult "file:docs/my notes.txt" "my notes.txt"
              storage.FILE]).
Proof.
  destruct (list_child_items_skips_missing_href
              (Fixture.parse_as Fixture.listing)
              Fixture.unquote Fixture.urlparse_path
              (Fixture.always_answer "multistatus") Fixture.base
              "folder:docs" "" None [] storage.FOLDER "docs" "multistatus"
              Fixture.listing eq_refl eq_refl eq_refl) as [Hskip Hpage].
  split; [exact (Hskip Fixture.without_href [] eq_refl)|].
  rewrite Hpage. reflexivity.
Defined.

(** With the fallback user name of the class itself the request for a
    user name is never refused: without a principal and without a user
    name in the extra results, the second PROPFIND goes to the files of
    [default-username]. *)
Lemma get_external_account_id_default_username
  (ET_fromstring : string -> result ET.Element)
  (network : list Request -> Request -> result string)
  (auth_result_extras : gmap string string) (log : list Request)
  (response_xml : string) (root : ET.Element) :
  network log principal_request = Ok response_xml ->
  ET_fromstring response_xml = Ok root ->
  text_of_found
    (ET.find_descendant_child (ET.dav "current-user-principal")
       (ET.dav "href") root) = None ->
  Py.truthy_opt (auth_result_extras !! "username") = false ->
  snd (get_external_account_id ET_fromstring network
         OwnCloudStorageImp_fallback_username auth_result_extras log) =
  (log ++ [principal_request;
           mkRequest "remote.php/dav/files/default-username/" (depth "0")
             _BUILD_PROPFIND_DISPLAYNAME])%list.
Proof.
  intros Hnet Hxml Hnone Hextras.
  unfold get_external_account_id, mbind, M_bind, bind, lift, PROPFIND.
  simpl. fold principal_request. rewrite Hnet.
  unfold _parse_current_user_principal, _parse_property.
  rewrite Hxml. simpl. rewrite Hnone. simpl.
  unfold Py.or_. rewrite Hextras. simpl.
  rewrite <- List.app_assoc. simpl.
  match goal with
  | |- context [network ?l ?r] => destruct (network l r)
  end; reflexivity.
Qed.

(** Slashes at the end of the base URL do not change the configuration
    that [build_wb_config] returns. *)
Theorem build_wb_config_trailing_slashes
  (urlparse_scheme_netloc : string -> result (string * string))
  (external_api_url slashes : string) (log : list Request) :
  Py.lstrip "/" slashes = "" ->
  build_wb_config urlparse_scheme_netloc (external_api_url ++ slashes) log =
  build_wb_config urlparse_scheme_netloc external_api_url log.
Proof.
  intros H. unfold build_wb_config.
  rewrite (rstrip_app_all_sep _ _ _ H). reflexivity.
Qed.

(** ** More runs of the adapter *)

Lemma make_item_id_parse_item_id_witness :
  _make_item_id storage.FILE "docs/a:b.txt" = "file:docs/a:b.txt".
Proof.
  apply (make_item_id_parse_item_id "file:docs/a:b.txt" storage.FILE
           "docs/a:b.txt"); [discriminate | reflexivity].
Defined.

Lemma href_to_path_normalised_witness :
  "my notes.txt" = "/"
  \/ ("my notes.txt" <> ""
      /\ Py.lstrip "/" "my notes.txt" = "my notes.txt"
      /\ Py.rstrip "/" "my notes.txt" = "my notes.txt").
Proof.
  apply (href_to_path_normalised Fixture.unquote Fixture.urlparse_path
           Fixture.base "/remote.php/dav/files/u//my%20notes.txt//").
  reflexivity.
Defined.

Lemma href_to_path_strips_string_prefix_witness :
  _href_to_path Fixture.unquote Fixture.urlparse_path Fixture.base
    "/remote.php/dav/files/u2/report.txt" = Ok "2/report.txt".
Proof.
  apply (href_to_path_strips_string_prefix
           Fixture.unquote Fixture.urlparse_path Fixture.base
           "/remote.php/dav/files/u2/report.txt"
           "/remote.php/dav/files/u2/report.txt"
           "/remote.php/dav/files/u/" "2/report.txt");
    reflexivity.
Defined.

Lemma get_item_info_identifier_witness :
  exists (t : storage.ItemType) (path : string),
    _parse_item_id "file:/docs/" = Ok (t, path)
    /\ _parse_item_id "folder:/docs/" = Ok (storage.FOLDER, path).
Proof.
  apply (get_item_info_identifier
           (Fixture.parse_as Fixture.item_answer)
           (Fixture.always_answer "multistatus") "file:/docs/" []
           [mkRequest "docs/" (depth "0") _BUILD_PROPFIND_ALLPROPS]
           (storage.mkItemResult "folder:/docs/" "docs" storage.FOLDER)).
  reflexivity.
Defined.

Lemma invalid_item_id_sends_nothing_witness :
  get_item_info (Fixture.parse_as Fixture.listing)
    (Fixture.always_answer "multistatus") "directory:docs" [] =
    (Raise (ValueError "'directory' is not a valid ItemType"), [])
  /\ list_child_items (Fixture.parse_as Fixture.listing)
       Fixture.unquote Fixture.urlparse_path
       (Fixture.always_answer "multistatus") Fixture.base
       "directory:docs" "" None [] =
     (Raise (ValueError "'directory' is not a valid ItemType"), []).
Proof.
  apply (invalid_item_id_sends_nothing
           (Fixture.parse_as Fixture.listing)
           Fixture.unquote Fixture.urlparse_path
           (Fixture.always_answer "multistatus") Fixture.base
           "directory:docs" "" None []).
  reflexivity.
Defined.

Lemma item_operations_send_one_request_witness :
  let q := String "034"%char "" in
  let n := String "010"%char "" in
  let allprops_body :=
    "<?xml version=" ++ q ++ "1.0" ++ q ++ " encoding=" ++ q ++ "UTF-8" ++ q
    ++ "?>" ++ n ++ "<d:propfind xmlns:d=" ++ q ++ "DAV:" ++ q ++ ">" ++ n
    ++ "    <d:allprop/>" ++ n
    ++ "</d:propfind>" in
  snd (get_item_info Fixture.unparsable Fixture.never_answers
         "folder://docs/" []) =
    [mkRequest "docs/" {[ "Depth" := "0" ]} allprops_body]
  /\ snd (list_child_items Fixture.unparsable
            Fixture.unquote Fixture.urlparse_path
            Fixture.never_answers Fixture.base "folder://docs/" "" None []) =
     [mkRequest "docs/" {[ "Depth" := "1" ]} allprops_body].
Proof.
  intros q n allprops_body.
  apply (item_operations_send_one_request Fixture.unparsable
           Fixture.unquote Fixture.urlparse_path
           Fixture.never_answers Fixture.base "folder://docs/" "" None []
           storage.FOLDER "//docs/").
  reflexivity.
Defined.

Lemma transport_failure_propagates_witness :
  get_external_account_id (Fixture.parse_as Fixture.listing)
    Fixture.never_answers OwnCloudStorageImp_fallback_username ∅ [] =
    (Raise (TransportError "timed out"), [principal_request])
  /\ get_external_account_id (Fixture.parse_as Fixture.principal_answer)
       (Fixture.answers_once "multistatus")
       OwnCloudStorageImp_fallback_username ∅ [] =
     (Raise (TransportError "connection reset"),
      [principal_request;
       mkRequest "remote.php/dav/principals/users/alice/" (depth "0")
         _BUILD_PROPFIND_DISPLAYNAME])
  /\ fst (get_item_info (Fixture.parse_as Fixture.listing)
            Fixture.never_answers "file:docs/a.txt" []) =
     Raise (TransportError "timed out")
  /\ fst (list_child_items (Fixture.parse_as Fixture.listing)
            Fixture.unquote Fixture.urlparse_path
            Fixture.never_answers Fixture.base "file:docs/a.txt" "" None [])
     = Raise (TransportError "timed out").
Proof.
  destruct (transport_failure_propagates
              (Fixture.parse_as Fixture.listing)
              Fixture.unquote Fixture.urlparse_path
              Fixture.never_answers Fixture.base
              OwnCloudStorageImp_fallback_username
              "file:docs/a.txt" "" None ∅ [] storage.FILE "docs/a.txt"
              (TransportError "timed out")) as (H1 & _ & H3 & H4).
  destruct (transport_failure_propagates
              (Fixture.parse_as Fixture.principal_answer)
              Fixture.unquote Fixture.urlparse_path
              (Fixture.answers_once "multistatus") Fixture.base
              OwnCloudStorageImp_fallback_username
              "file:docs/a.txt" "" None ∅ [] storage.FILE "docs/a.txt"
              (TransportError "connection reset")) as (_ & H2 & _).
  split; [exact (H1 eq_refl)|].
  split; [exact (H2 _ eq_refl eq_refl)|].
  split; [exact (H3 eq_refl eq_refl) | exact (H4 eq_refl eq_refl)].
Defined.

Lemma get_external_account_id_unparsable_answer_witness :
  get_external_account_id Fixture.unparsable
    (Fixture.always_answer "not xml") OwnCloudStorageImp_fallback_username
    {[ "username" := "alice" ]} [] =
  (Raise ParseError, [principal_request]).
Proof.
  apply (get_external_account_id_unparsable_answer Fixture.unparsable
           (Fixture.always_answer "not xml")
           OwnCloudStorageImp_fallback_username
           {[ "username" := "alice" ]} [] "not xml" ParseError);
    [reflexivity | reflexivity | discriminate].
Defined.

Lemma get_external_account_id_principal_found_witness :
  let q := String "034"%char "" in
  let n := String "010"%char "" in
  let principal_body :=
    "<?xml version=" ++ q ++ "1.0" ++ q ++ " encoding=" ++ q ++ "UTF-8" ++ q
    ++ "?>" ++ n ++ "<d:propfind xmlns:d=" ++ q ++ "DAV:" ++ q ++ ">" ++ n
    ++ "    <d:prop>" ++ n
    ++ "        <d:current-user-principal/>" ++ n
    ++ "    </d:prop>" ++ n
    ++ "</d:propfind>" in
  let displayname_body :=
    "<?xml version=" ++ q ++ "1.0" ++ q ++ " encoding=" ++ q ++ "UTF-8" ++ q
    ++ "?>" ++ n ++ "<d:propfind xmlns:d=" ++ q ++ "DAV:" ++ q ++ ">" ++ n
    ++ "    <d:prop>" ++ n
    ++ "        <d:displayname/>" ++ n
    ++ "    </d:prop>" ++ n
    ++ "</d:propfind>" in
  get_external_account_id (Fixture.parse_as Fixture.principal_answer)
    (Fixture.always_answer "multistatus") None
    {[ "username" := "bob" ]} [] =
  (Ok "Alice",
   [mkRequest "" {[ "Depth" := "0" ]} principal_body;
    mkRequest "remote.php/dav/principals/users/alice/" {[ "Depth" := "0" ]}
      displayname_body]).
Proof.
  intros q n principal_body displayname_body.
  apply (get_external_account_id_principal_found
           (Fixture.parse_as Fixture.principal_answer)
           (Fixture.always_answer "multistatus") None
           {[ "username" := "bob" ]} [] "multistatus"
           "/remote.php/dav/principals/users/alice/"
           Fixture.principal_answer);
    reflexivity.
Defined.

Lemma get_external_account_id_username_path_witness :
  snd (get_external_account_id (Fixture.parse_as Fixture.empty_multistatus)
         (Fixture.always_answer "multistatus")
         OwnCloudStorageImp_fallback_username
         {[ "username" := "../../admin" ]} []) =
  [principal_request;
   mkRequest "remote.php/dav/files/../../admin/" (depth "0")
     _BUILD_PROPFIND_DISPLAYNAME].
Proof.
  apply (get_external_account_id_username_path
           (Fixture.parse_as Fixture.empty_multistatus)
           (Fixture.always_answer "multistatus")
           OwnCloudStorageImp_fallback_username
           {[ "username" := "../../admin" ]} [] "multistatus"
           "../../admin" Fixture.empty_multistatus);
    [reflexivity | reflexivity | reflexivity | reflexivity | discriminate].
Defined.

Lemma parse_displayname_never_empty_witness :
  _parse_displayname (Fixture.parse_as Fixture.empty_multistatus)
    "multistatus" = Ok "default-name".
Proof.
  apply (proj2 (proj2 (parse_displayname_never_empty
                         (Fixture.parse_as Fixture.empty_multistatus)
                         "multistatus")) Fixture.empty_multistatus);
    reflexivity.
Defined.

Lemma get_external_account_id_result_witness :
  let q := String "034"%char "" in
  let n := String "010"%char "" in
  let principal_body :=
    "<?xml version=" ++ q ++ "1.0" ++ q ++ " encoding=" ++ q ++ "UTF-8" ++ q
    ++ "?>" ++ n ++ "<d:propfind xmlns:d=" ++ q ++ "DAV:" ++ q ++ ">" ++ n
    ++ "    <d:prop>" ++ n
    ++ "        <d:current-user-principal/>" ++ n
    ++ "    </d:prop>" ++ n
    ++ "</d:propfind>" in
  let displayname_body :=
    "<?xml version=" ++ q ++ "1.0" ++ q ++ " encoding=" ++ q ++ "UTF-8" ++ q
    ++ "?>" ++ n ++ "<d:propfind xmlns:d=" ++ q ++ "DAV:" ++ q ++ ">" ++ n
    ++ "    <d:prop>" ++ n
    ++ "        <d:displayname/>" ++ n
    ++ "    </d:prop>" ++ n
    ++ "</d:propfind>" in
  "Alice" <> ""
  /\ exists path,
       [principal_request;
        mkRequest "remote.php/dav/principals/users/alice/" (depth "0")
          _BUILD_PROPFIND_DISPLAYNAME] =
       [mkRequest "" {[ "Depth" := "0" ]} principal_body;
        mkRequest path {[ "Depth" := "0" ]} displayname_body]
       /\ Py.startswith path "/" = false.
Proof.
  intros q n principal_body displayname_body.
  apply (get_external_account_id_result
           (Fixture.parse_as Fixture.principal_answer)
           (Fixture.always_answer "multistatus") None ∅ []
           [principal_request;
            mkRequest "remote.php/dav/principals/users/alice/" (depth "0")
              _BUILD_PROPFIND_DISPLAYNAME]
           "Alice").
  reflexivity.
Defined.

Lemma get_external_account_id_default_username_witness :
  snd (get_external_account_id (Fixture.parse_as Fixture.empty_multistatus)
         (Fixture.always_answer "multistatus")
         OwnCloudStorageImp_fallback_username {[ "username" := "" ]} []) =
  [principal_request;
   mkRequest "remote.php/dav/files/default-username/" (depth "0")
     _BUILD_PROPFIND_DISPLAYNAME].
Proof.
  apply (get_external_account_id_default_username
           (Fixture.parse_as Fixture.empty_multistatus)
           (Fixture.always_answer "multistatus")
           {[ "username" := "" ]} [] "multistatus"
           Fixture.empty_multistatus);
    reflexivity.
Defined.

Lemma list_child_items_entries_from_responses_witness :
  let q := String "034"%char "" in
  let n := String "010"%char "" in
  let allprops_body :=
    "<?xml version=" ++ q ++ "1.0" ++ q ++ " encoding=" ++ q ++ "UTF-8" ++ q
    ++ "?>" ++ n ++ "<d:propfind xmlns:d=" ++ q ++ "DAV:" ++ q ++ ">" ++ n
    ++ "    <d:allprop/>" ++ n
    ++ "</d:propfind>" in
  exists t path response_xml root,
    _parse_item_id "folder:docs" = Ok (t, path)
    /\ Fixture.always_answer "multistatus" []
         (mkRequest (Py.lstrip "/" path) {[ "Depth" := "1" ]} allprops_body)
       = Ok response_xml
    /\ Fixture.parse_as Fixture.listing response_xml = Ok root
    /\ Forall (fun item =>
                 exists response_element href item_path,
                   List.In response_element
                     (ET.findall_child (ET.dav "response") root)
                   /\ text_of_found
                        (ET.find_child (ET.dav "href") response_element)
                      = Some href
                   /\ _href_to_path Fixture.unquote Fixture.urlparse_path
                        Fixture.base href = Ok item_path
                   /\ item =
                      _parse_response_element response_element item_path)
         [storage.mkItemResult "file:docs/my notes.txt" "my notes.txt"
            storage.FILE].
Proof.
  intros q n allprops_body.
  apply (list_child_items_entries_from_responses
           (Fixture.parse_as Fixture.listing)
           Fixture.unquote Fixture.urlparse_path
           (Fixture.always_answer "multistatus") Fixture.base
           "folder:docs" "" None []
           [mkRequest "docs" (depth "1") _BUILD_PROPFIND_ALLPROPS]
           (storage.mkItemSampleResult
              [storage.mkItemResult "file:docs/my notes.txt" "my notes.txt"
                 storage.FILE])).
  reflexivity.
Defined.

Lemma list_child_items_entries_lookup_witness :
  Forall (fun item =>
            exists p,
              entry_path item = Ok p
              /\ forall log2,
                   snd (get_item_info (Fixture.parse_as Fixture.listing)
                          (Fixture.always_answer "multistatus")
                          (storage.item_id item) log2) =
                   (log2 ++ [mkRequest (if String.eqb p "/" then "" else p)
                               (depth "0") _BUILD_PROPFIND_ALLPROPS])%list)
    [storage.mkItemResult "file:docs/my notes.txt" "my notes.txt"
       storage.FILE].
Proof.
  apply (list_child_items_entries_lookup
           (Fixture.parse_as Fixture.listing)
           Fixture.unquote Fixture.urlparse_path
           (Fixture.always_answer "multistatus") Fixture.base
           "folder:docs" "" None []
           [mkRequest "docs" (depth "1") _BUILD_PROPFIND_ALLPROPS]
           (storage.mkItemSampleResult
              [storage.mkItemResult "file:docs/my notes.txt" "my notes.txt"
                 storage.FILE])).
  reflexivity.
Defined.

Lemma list_child_items_unparsable_href_witness :
  fst (list_child_items (Fixture.parse_as Fixture.listing_with_bad_href)
         Fixture.unquote Fixture.strict_urlparse_path
         (Fixture.always_answer "multistatus") Fixture.base
         "folder:docs" "" None []) =
  Raise (ValueError "Invalid IPv6 URL").
Proof.
  apply (list_child_items_unparsable_href
           (Fixture.parse_as Fixture.listing_with_bad_href)
           Fixture.unquote Fixture.strict_urlparse_path
           (Fixture.always_answer "multistatus") Fixture.base
           "folder:docs" "" None [] storage.FOLDER "docs" "multistatus"
           Fixture.listing_with_bad_href Fixture.bad_href
           [Fixture.file_notes] [Fixture.folder_docs]
           [storage.mkItemResult "file:docs/my notes.txt" "my notes.txt"
              storage.FILE]
           "//[host/docs/broken" (ValueError "Invalid IPv6 URL"));
    reflexivity.
Defined.

Lemma list_child_items_filtered_type_witness :
  Forall (fun item => storage.item_type item = storage.FILE)
    [storage.mkItemResult "file:my notes.txt" "my notes.txt" storage.FILE].
Proof.
  apply (list_child_items_filtered_type
           (Fixture.parse_as Fixture.listing)
           Fixture.unquote Fixture.urlparse_path
           (Fixture.always_answer "multistatus")
           "https://host/remote.php/dav/files/u/docs/"
           "" "" storage.FILE []
           [mkRequest "" (depth "1") _BUILD_PROPFIND_ALLPROPS]
           (storage.mkItemSampleResult
              [storage.mkItemResult "file:my notes.txt" "my notes.txt"
                 storage.FILE])).
  reflexivity.
Defined.

Lemma list_child_items_body_skips_base_witness :
  list_child_items_body Fixture.unquote Fixture.urlparse_path Fixture.base
    "/" None Fixture.root_entry [] = Ok [].
Proof.
  apply (list_child_items_body_skips_base
           Fixture.unquote Fixture.urlparse_path Fixture.base
           "/" "/remote.php/dav/files/u/" "/remote.php/dav/files/u/"
           None Fixture.root_entry []);
    reflexivity.
Defined.

Lemma build_wb_config_trailing_slashes_witness :
  build_wb_config Fixture.urlparse_scheme_netloc
    ("https://cloud.example.com/remote.php/webdav" ++ "//") [] =
  (Ok (mkWbConfig "" "https://cloud.example.com" true), []).
Proof.
  rewrite (build_wb_config_trailing_slashes Fixture.urlparse_scheme_netloc
             "https://cloud.example.com/remote.php/webdav" "//" [] eq_refl).
  reflexivity.
Defined.
